(** * Umbra: a caching, object-oriented wrapper over WebGL2

    Shallow embedding of the wrapper classes of the Umbra sources
    ([Context], [Program], [Attribute], [AttributeState] and the uniform
    setters) together with the properties the specification states about
    them.

    The browser's WebGL2 implementation is not part of the program.  Every
    method call or property access on a native object
    ([WebGL2RenderingContext], a canvas) and every call into a wrapper class
    whose source is not in this tree is therefore an _event_: the wrapper
    code is a tree of such events ([Prog]), and an environment ([Env])
    answers them.  Running a wrapper operation against an environment yields
    its outcome (a returned value or a thrown error), the ordered list of
    native calls it issued, and the environment's final state.  Properties of
    the form "the setter issues exactly one native call" are statements about
    that list, and hold for every environment. *)

From Stdlib Require Import ZArith List Bool Lia.
From Stdlib Require Import PrimFloat SpecFloat FloatOps FloatAxioms.
From stdpp Require Import base option list gmap strings.

Local Open Scope Z_scope.

(** ** Native handles and plain data *)

(** JavaScript objects owned by the browser are compared by identity; a
    handle stands for that identity. *)
Definition RawContext := positive.
Definition Canvas := positive.
Definition WebGLContextAttributes := positive.
Definition WebGLProgram := positive.
Definition WebGLShader := positive.
Definition WebGLVertexArrayObject := positive.
Definition WebGLUniformLocation := positive.

(** [PredefinedColorSpace] of the DOM typings. *)
Inductive PredefinedColorSpace := display_p3 | srgb.

Definition PredefinedColorSpace_eqb (a b : PredefinedColorSpace) : bool :=
  match a, b with
  | display_p3, display_p3 | srgb, srgb => true
  | _, _ => false
  end.

(** A JavaScript [number] is an IEEE 754 double; [==] on two numbers is the
    IEEE comparison: [NaN] differs from itself and the two zeros are equal. *)
Definition number := float.
Definition number_eq (a b : number) : bool := PrimFloat.eqb a b.

(** [Color]: four numbers, read in the source as [value[0]] .. [value[3]]. *)
Record Color := mkColor { c0 : number; c1 : number; c2 : number; c3 : number }.

(** Parameter names handed to [getParameter] and [getProgramParameter]
    (imported from the constants module). *)
Inductive Pname := ACTIVE_TEXTURE | BLEND_COLOR.
Inductive ProgramPname := LINK_STATUS.
Inductive ShaderPname := COMPILE_STATUS.
Inductive ShaderType := VERTEX_SHADER | FRAGMENT_SHADER.

(** Modelled from the spec: the constants module is not in this tree.  The
    wrapped API is WebGL2, whose enum [TEXTURE0] is [0x84C0]; texture units
    and enums are integers.  No theorem below depends on the value. *)
Definition TEXTURE0 : Z := 33984.

(** [BufferTarget.ARRAY_BUFFER] of the constants module, as a symbolic
    target. *)
Inductive BufferTarget := ARRAY_BUFFER | ELEMENT_ARRAY_BUFFER.

(** What [getParameter] yields for each parameter the source asks for. *)
Definition ParamValue (p : Pname) : Type :=
  match p with
  | ACTIVE_TEXTURE => Z
  | BLEND_COLOR => Color
  end.

(** A [Buffer] wrapper object (class not in this tree), by identity. *)
Definition Buffer := positive.

(** [AttributeValue]: an object with a [buffer] property and the optional
    pointer settings. *)
Record AttributeValue := mkAttributeValue {
  buffer : Buffer;
  av_size : option Z;
  av_normalized : option bool;
  av_stride : option Z;
  av_offset : option Z
}.

(** [WebGLActiveInfo] of the DOM typings. *)
Record WebGLActiveInfo := mkActiveInfo {
  ai_name : string;
  ai_size : Z;
  ai_type : Z
}.

(** ** Errors *)

(** The error classes thrown by the wrapper, with the message handed to the
    constructor ([None] when the constructor is called with [undefined] or
    without argument). *)
Inductive WrapperError :=
| UnsupportedOperationError (message : option string)
| ProgramLinkError (message : option string)
| ShaderCompileError (message : option string)
| JsError (message : string).

(** ** The older attribute-state class ([webgl/AttributeState.ts]) *)

(** The buffer class that file imports, reduced to the two properties it
    reads. *)
Record LegacyBuffer := mkLegacyBuffer {
  lb_gl : RawContext;
  lb_type : Z
}.

(** The attribute class that file imports (not in this tree), by identity. *)
Definition LegacyAttribute := positive.

(** [size: 1 | 2 | 3 | 4]. *)
Inductive ComponentCount := Size1 | Size2 | Size3 | Size4.

Module AttributeState.

Record t := mk {
  gl : RawContext;
  name : string;
  buffer : LegacyBuffer;
  size : ComponentCount;
  normalized : bool;
  stride : number;
  offset : number
}.

(** [constructor(name, buffer, size = 3, normalized = false, stride = 0,
    offset = 0)]: an omitted argument is [None]. *)
Definition constructor (name : string) (buffer : LegacyBuffer)
    (size : option ComponentCount) (normalized : option bool)
    (stride offset : option number) : t :=
  {| name := name;
     buffer := buffer;
     size := default Size3 size;
     normalized := default false normalized;
     stride := default PrimFloat.zero stride;
     offset := default PrimFloat.zero offset;
     gl := lb_gl buffer |}.

(** [get type()] *)
Definition type (this : t) : Z := lb_type (buffer this).

End AttributeState.

(** ** Native calls *)

(** One constructor per call site shape of the source.  [GL_*] are methods
    and property accesses of the [WebGL2RenderingContext] given as first
    argument; the last group are calls into wrapper classes whose source is
    not in this tree. *)
Inductive NativeCall :=
| Canvas_getContext (canvas : Canvas) (contextId : string)
    (options : option WebGLContextAttributes)
| GL_canvas (gl : RawContext)
| GL_get_drawingBufferColorSpace (gl : RawContext)
| GL_set_drawingBufferColorSpace (gl : RawContext) (value : PredefinedColorSpace)
| GL_get_drawingBufferHeight (gl : RawContext)
| GL_get_drawingBufferWidth (gl : RawContext)
| GL_get_unpackColorSpace (gl : RawContext)
| GL_set_unpackColorSpace (gl : RawContext) (value : PredefinedColorSpace)
| GL_getParameter (gl : RawContext) (pname : Pname)
| GL_activeTexture (gl : RawContext) (texture : Z)
| GL_blendColor (gl : RawContext) (red green blue alpha : number)
| GL_createProgram (gl : RawContext)
| GL_attachShader (gl : RawContext) (program : WebGLProgram) (shader : WebGLShader)
| GL_bindAttribLocation (gl : RawContext) (program : WebGLProgram) (index : Z)
    (name : string)
| GL_linkProgram (gl : RawContext) (program : WebGLProgram)
| GL_getProgramParameter (gl : RawContext) (program : WebGLProgram)
    (pname : ProgramPname)
| GL_getProgramInfoLog (gl : RawContext) (program : WebGLProgram)
| GL_deleteProgram (gl : RawContext) (program : WebGLProgram)
| GL_getAttribLocation (gl : RawContext) (program : WebGLProgram) (name : string)
| GL_enableVertexAttribArray (gl : RawContext) (index : Z)
| GL_disableVertexAttribArray (gl : RawContext) (index : Z)
| GL_uniform1f (gl : RawContext) (location : WebGLUniformLocation) (x : number)
| GL_uniform1fv (gl : RawContext) (location : WebGLUniformLocation)
    (data : list number) (srcOffset srcLength : option Z)
| GL_uniform3fv (gl : RawContext) (location : WebGLUniformLocation)
    (data : list number) (srcOffset srcLength : option Z)
| GL_uniform2iv (gl : RawContext) (location : WebGLUniformLocation)
    (data : list number) (srcOffset srcLength : option Z)
| GL_uniformMatrix2fv (gl : RawContext) (location : WebGLUniformLocation)
    (transpose : bool) (data : list number) (srcOffset srcLength : option Z)
| GL_uniformMatrix3x4fv (gl : RawContext) (location : WebGLUniformLocation)
    (transpose : bool) (data : list number) (srcOffset srcLength : option Z)
| GL_createShader (gl : RawContext) (type : ShaderType)
| GL_shaderSource (gl : RawContext) (shader : WebGLShader) (source : string)
| GL_compileShader (gl : RawContext) (shader : WebGLShader)
| GL_getShaderParameter (gl : RawContext) (shader : WebGLShader)
    (pname : ShaderPname)
| GL_getShaderInfoLog (gl : RawContext) (shader : WebGLShader)
| Vao_getBound (gl : RawContext)
| Buffer_bind (buffer : Buffer) (target : BufferTarget)
| Attribute_setterInternal (gl : RawContext) (location : Z) (value : AttributeValue)
| LegacyAttribute_set_value (attribute : LegacyAttribute) (value : AttributeState.t).

(** The type of the answer to each call. *)
Definition Resp (c : NativeCall) : Type :=
  match c with
  | Canvas_getContext _ _ _ => option RawContext
  | GL_canvas _ => Canvas
  | GL_get_drawingBufferColorSpace _ => PredefinedColorSpace
  | GL_get_unpackColorSpace _ => PredefinedColorSpace
  | GL_get_drawingBufferHeight _ => Z
  | GL_get_drawingBufferWidth _ => Z
  | GL_getParameter _ p => ParamValue p
  | GL_createProgram _ => option WebGLProgram
  | GL_getProgramParameter _ _ _ => bool
  | GL_getProgramInfoLog _ _ => option string
  | GL_getAttribLocation _ _ _ => Z
  | GL_createShader _ _ => option WebGLShader
  | GL_getShaderParameter _ _ _ => bool
  | GL_getShaderInfoLog _ _ => option string
  | Vao_getBound _ => option WebGLVertexArrayObject
  | _ => unit
  end.

(** ** Wrapper code as trees of native calls *)

Inductive Prog (A : Type) : Type :=
| Ret (a : A)
| Throw (e : WrapperError)
| Call (c : NativeCall) (k : Resp c -> Prog A).

Arguments Ret {A} a.
Arguments Throw {A} e.
Arguments Call {A} c k.

Fixpoint bind {A B : Type} (m : Prog A) (f : A -> Prog B) : Prog B :=
  match m with
  | Ret a => f a
  | Throw e => Throw e
  | Call c k => Call c (fun r => bind (k r) f)
  end.

#[global] Instance Prog_ret : MRet Prog := @Ret.
#[global] Instance Prog_bind : MBind Prog := fun A B f m => bind m f.

(** A single native call, returning the answer. *)
Definition call (c : NativeCall) : Prog (Resp c) := Call c Ret.

(** ** Environments and runs *)

(** An environment is any deterministic answering machine for native calls. *)
Record Env := mkEnv {
  St : Type;
  respond : forall c : NativeCall, St -> Resp c * St
}.

Inductive Outcome (A : Type) : Type :=
| Returned (a : A)
| Thrown (e : WrapperError).

Arguments Returned {A} a.
Arguments Thrown {A} e.

Record Run (E : Env) (A : Type) := mkRun {
  outcome : Outcome A;
  trace : list NativeCall;
  final : St E
}.

Arguments mkRun {E A} outcome trace final.
Arguments outcome {E A} r.
Arguments trace {E A} r.
Arguments final {E A} r.

(** The answer the environment gives to [c] in state [s]. *)
Definition answer (E : Env) (c : NativeCall) (s : St E) : Resp c :=
  fst (respond E c s).

(** The environment's state after answering [c] in state [s]. *)
Definition after (E : Env) (c : NativeCall) (s : St E) : St E :=
  snd (respond E c s).

Fixpoint run {A : Type} (E : Env) (p : Prog A) (s : St E) : Run E A :=
  match p with
  | Ret a => mkRun (Returned a) [] s
  | Throw e => mkRun (Thrown e) [] s
  | Call c k =>
      let r := run E (k (answer E c s)) (after E c s) in
      mkRun (outcome r) (c :: trace r) (final r)
  end.

(** ** [core/Context.ts] *)

(** Modelled from the spec: the base class [ApiInterface] is not in this
    tree; a wrapper object holds a handle to the underlying native resource,
    so [super(gl)] stores the handle as [this.gl]. *)
Definition ApiInterface_constructor (gl : RawContext) : RawContext := gl.

(** [source: WebGL2RenderingContext | Canvas], told apart in the source by
    [instanceof]. *)
Inductive ContextSource :=
| FromRawContext (gl : RawContext)
| FromCanvas (canvas : Canvas).

Module Context.

Record t := mk {
  gl : RawContext;
  canvas : Canvas;
  drawingBufferColorSpaceCache : option PredefinedColorSpace;
  unpackColorSpaceCache : option PredefinedColorSpace;
  activeTextureCache : option Z;
  blendColorCache : option Color
}.

Definition with_drawingBufferColorSpaceCache
    (v : option PredefinedColorSpace) (this : t) : t :=
  mk (gl this) (canvas this) v (unpackColorSpaceCache this)
     (activeTextureCache this) (blendColorCache this).

Definition with_unpackColorSpaceCache
    (v : option PredefinedColorSpace) (this : t) : t :=
  mk (gl this) (canvas this) (drawingBufferColorSpaceCache this) v
     (activeTextureCache this) (blendColorCache this).

Definition with_activeTextureCache (v : option Z) (this : t) : t :=
  mk (gl this) (canvas this) (drawingBufferColorSpaceCache this)
     (unpackColorSpaceCache this) v (blendColorCache this).

Definition with_blendColorCache (v : option Color) (this : t) : t :=
  mk (gl this) (canvas this) (drawingBufferColorSpaceCache this)
     (unpackColorSpaceCache this) (activeTextureCache this) v.

(** The tail of both constructor branches: [super(gl)], then
    [this.canvas = this.gl.canvas]; the cache fields start out
    [undefined]. *)
Definition wrap (g : RawContext) : Prog t :=
  let this_gl := ApiInterface_constructor g in
  cv ← call (GL_canvas this_gl);
  mret (mk this_gl cv None None None None).

Definition constructor (source : ContextSource)
    (options : option WebGLContextAttributes) : Prog t :=
  match source with
  | FromRawContext g => wrap g
  | FromCanvas cv =>
      r ← call (Canvas_getContext cv "webgl2" options);
      match r with
      | None =>
          Throw (UnsupportedOperationError
                   (Some "The environment does not support WebGL2."))
      | Some g => wrap g
      end
  end.

(** Getters return the value read together with the wrapper, whose cache
    field the read may have filled. *)
Definition get_drawingBufferColorSpace (this : t)
    : Prog (PredefinedColorSpace * t) :=
  match drawingBufferColorSpaceCache this with
  | None =>
      v ← call (GL_get_drawingBufferColorSpace (gl this));
      mret (v, with_drawingBufferColorSpaceCache (Some v) this)
  | Some v => mret (v, this)
  end.

(** [cache == value] with an [undefined] cache is [false]. *)
Definition set_drawingBufferColorSpace (value : PredefinedColorSpace)
    (this : t) : Prog t :=
  if match drawingBufferColorSpaceCache this with
     | Some c => PredefinedColorSpace_eqb c value
     | None => false
     end
  then mret this
  else
    _ ← call (GL_set_drawingBufferColorSpace (gl this) value);
    mret (with_drawingBufferColorSpaceCache (Some value) this).

Definition get_drawingBufferHeight (this : t) : Prog Z :=
  call (GL_get_drawingBufferHeight (gl this)).

Definition get_drawingBufferWidth (this : t) : Prog Z :=
  call (GL_get_drawingBufferWidth (gl this)).

Definition get_unpackColorSpace (this : t)
    : Prog (PredefinedColorSpace * t) :=
  match unpackColorSpaceCache this with
  | None =>
      v ← call (GL_get_unpackColorSpace (gl this));
      mret (v, with_unpackColorSpaceCache (Some v) this)
  | Some v => mret (v, this)
  end.

Definition set_unpackColorSpace (value : PredefinedColorSpace)
    (this : t) : Prog t :=
  if match unpackColorSpaceCache this with
     | Some c => PredefinedColorSpace_eqb c value
     | None => false
     end
  then mret this
  else
    _ ← call (GL_set_unpackColorSpace (gl this) value);
    mret (with_unpackColorSpaceCache (Some value) this).

Definition get_activeTexture (this : t) : Prog (Z * t) :=
  match activeTextureCache this with
  | None =>
      p ← call (GL_getParameter (gl this) ACTIVE_TEXTURE);
      let v : Z := p - TEXTURE0 in
      mret (v, with_activeTextureCache (Some v) this)
  | Some v => mret (v, this)
  end.

Definition set_activeTexture (value : Z) (this : t) : Prog t :=
  if match activeTextureCache this with
     | Some c => Z.eqb c value
     | None => false
     end
  then mret this
  else
    _ ← call (GL_activeTexture (gl this) (value + TEXTURE0));
    mret (with_activeTextureCache (Some value) this).

Definition get_blendColor (this : t) : Prog (Color * t) :=
  match blendColorCache this with
  | None =>
      v ← call (GL_getParameter (gl this) BLEND_COLOR);
      mret (v, with_blendColorCache (Some v) this)
  | Some v => mret (v, this)
  end.

(** The guard of the [blendColor] setter: a cache is present and its four
    components are [==] to those of [value]. *)
Definition blendColor_unchanged (cache : option Color) (value : Color)
    : bool :=
  match cache with
  | Some c =>
      number_eq (c0 c) (c0 value) && number_eq (c1 c) (c1 value)
      && number_eq (c2 c) (c2 value) && number_eq (c3 c) (c3 value)
  | None => false
  end.

Definition set_blendColor (value : Color) (this : t) : Prog t :=
  if blendColor_unchanged (blendColorCache this) value
  then mret this
  else
    _ ← call (GL_blendColor (gl this) (c0 value) (c1 value) (c2 value)
                (c3 value));
    mret (with_blendColorCache (Some value) this).

End Context.

(** ** Shaders *)

(** Modelled from the spec: the base class [ContextDependent] is not in this
    tree; a wrapper object holds a reference to the owning context, and
    [this.gl] is that context's native handle. *)
Definition ContextDependent_constructor (context : Context.t) : RawContext :=
  Context.gl context.

Module Shader.

Record t := mk {
  gl : RawContext;
  type : ShaderType;
  internal : WebGLShader
}.

(** Modelled from the spec: the [Shader] class is not in this tree.  Its
    constructor acquires a native handle and fails with a typed error if
    acquisition fails; a failed compile raises the compile-failure error
    with the driver-provided diagnostic text attached, detected at the
    native call and neither retried nor recovered.  The shape follows the
    [Program] constructor of this tree. *)
Definition constructor (context : Context.t) (type : ShaderType)
    (source : string) : Prog t :=
  let this_gl := ContextDependent_constructor context in
  shader ← call (GL_createShader this_gl type);
  match shader with
  | None => Throw (UnsupportedOperationError None)
  | Some shader =>
      _ ← call (GL_shaderSource this_gl shader source);
      _ ← call (GL_compileShader this_gl shader);
      status ← call (GL_getShaderParameter this_gl shader COMPILE_STATUS);
      if negb status
      then
        log ← call (GL_getShaderInfoLog this_gl shader);
        Throw (ShaderCompileError log)
      else mret (mk this_gl type shader)
  end.

End Shader.

(** ** [Program] (second unnamed source file) *)

Module Program.

Record t := mk {
  gl : RawContext;
  internal : WebGLProgram;
  vertexShader : Shader.t;
  fragmentShader : Shader.t
}.

(** [get linkStatus()] *)
Definition get_linkStatus (this : t) : Prog bool :=
  call (GL_getProgramParameter (gl this) (internal this) LINK_STATUS).

(** [get infoLog()]: [string | null]. *)
Definition get_infoLog (this : t) : Prog (option string) :=
  call (GL_getProgramInfoLog (gl this) (internal this)).

(** [for (const [name, location] of attributeLocations)]: a [Map] is
    iterated in insertion order. *)
Fixpoint bindAttribLocations (g : RawContext) (program : WebGLProgram)
    (attributeLocations : list (string * Z)) : Prog unit :=
  match attributeLocations with
  | [] => mret tt
  | (name, location) :: rest =>
      _ ← call (GL_bindAttribLocation g program location name);
      bindAttribLocations g program rest
  end.

Definition constructor (context : Context.t)
    (vertexShader fragmentShader : Shader.t)
    (attributeLocations : option (list (string * Z))) : Prog t :=
  let this_gl := ContextDependent_constructor context in
  program ← call (GL_createProgram this_gl);
  match program with
  | None => Throw (UnsupportedOperationError None)
  | Some program =>
      _ ← call (GL_attachShader this_gl program (Shader.internal vertexShader));
      _ ← call (GL_attachShader this_gl program
                  (Shader.internal fragmentShader));
      _ ← match attributeLocations with
          | Some locations => bindAttribLocations this_gl program locations
          | None => mret tt
          end;
      _ ← call (GL_linkProgram this_gl program);
      let this := mk this_gl program vertexShader fragmentShader in
      status ← get_linkStatus this;
      if negb status
      then
        (* [this.infoLog ?? void 0]: [null] becomes [undefined] *)
        log ← get_infoLog this;
        Throw (ProgramLinkError log)
      else mret this
  end.

(** [static fromSource]: the arguments of [new Program] are evaluated left
    to right. *)
Definition fromSource (context : Context.t)
    (vertexShaderSource fragmentShaderSource : string) : Prog t :=
  vs ← Shader.constructor context VERTEX_SHADER vertexShaderSource;
  fs ← Shader.constructor context FRAGMENT_SHADER fragmentShaderSource;
  constructor context vs fs None.

(** [delete()]: returns the wrapper as it is after the call. *)
Definition delete (this : t) : Prog t :=
  _ ← call (GL_deleteProgram (gl this) (internal this));
  mret this.

End Program.

(** ** [Attribute] (first unnamed source file) *)

(** [setValue(value: AttributeValue | Buffer)], told apart in the source by
    ["buffer" in value]. *)
Inductive SetValueArg :=
| AsValue (value : AttributeValue)
| AsBuffer (buffer : Buffer).

(** [const realValue = "buffer" in value ? value : { buffer: value }] *)
Definition realValue (value : SetValueArg) : AttributeValue :=
  match value with
  | AsValue v => v
  | AsBuffer b => mkAttributeValue b None None None None
  end.

(** [Array.prototype.includes] on object identities. *)
Definition includes (l : list WebGLVertexArrayObject)
    (v : WebGLVertexArrayObject) : bool :=
  bool_decide (v ∈ l).

(** [Array.prototype.indexOf]: the first index holding [v], or [-1]. *)
Fixpoint indexOf (l : list WebGLVertexArrayObject)
    (v : WebGLVertexArrayObject) : Z :=
  match l with
  | [] => -1
  | x :: rest =>
      if Pos.eqb x v then 0
      else let i := indexOf rest v in if i <? 0 then -1 else i + 1
  end.

(** [Array.prototype.splice(start, 1)]: a negative [start] counts from the
    end, and a [start] past the end deletes nothing. *)
Definition splice1 (l : list WebGLVertexArrayObject) (start : Z)
    : list WebGLVertexArrayObject :=
  let n := Z.of_nat (length l) in
  let i := if start <? 0 then Z.max (n + start) 0 else Z.min start n in
  delete (Z.to_nat i) l.

Module Attribute.

Record t := mk {
  gl : RawContext;
  activeInfo : WebGLActiveInfo;
  location : Z;
  enabledVaosCache : list WebGLVertexArrayObject;
  valueCache : option AttributeValue
}.

Definition with_enabledVaosCache (l : list WebGLVertexArrayObject)
    (this : t) : t :=
  mk (gl this) (activeInfo this) (location this) l (valueCache this).

Definition with_valueCache (v : option AttributeValue) (this : t) : t :=
  mk (gl this) (activeInfo this) (location this) (enabledVaosCache this) v.

(** Modelled from the spec: the base class [Variable] is not in this tree;
    [super(program)] gives the wrapper the program's native context, and
    [this.name] is the name of the active information. *)
Definition constructor (program : Program.t) (activeInfo : WebGLActiveInfo)
    : Prog t :=
  let this_gl := Program.gl program in
  loc ← call (GL_getAttribLocation this_gl (Program.internal program)
                (ai_name activeInfo));
  mret (mk this_gl activeInfo loc [] None).

(** [get enabled()]. [Vao.getBound] is a static method of a class that is
    not in this tree. *)
Definition get_enabled (this : t) : Prog bool :=
  vao ← call (Vao_getBound (gl this));
  match vao with
  | None => mret false
  | Some v => mret (includes (enabledVaosCache this) v)
  end.

(** [set enabled(value)] *)
Definition set_enabled (value : bool) (this : t) : Prog t :=
  current ← get_enabled this;
  if Bool.eqb current value
  then mret this
  else
    vao ← call (Vao_getBound (gl this));
    if value
    then
      _ ← call (GL_enableVertexAttribArray (gl this) (location this));
      match vao with
      | Some v =>
          if negb (includes (enabledVaosCache this) v)
          then mret (with_enabledVaosCache (enabledVaosCache this ++ [v]) this)
          else mret this
      | None => mret this
      end
    else
      _ ← call (GL_disableVertexAttribArray (gl this) (location this));
      match vao with
      | Some v =>
          if includes (enabledVaosCache this) v
          then
            mret (with_enabledVaosCache
                    (splice1 (enabledVaosCache this)
                       (indexOf (enabledVaosCache this) v))
                    this)
          else mret this
      | None => mret this
      end.

(** [get value()] *)
Definition get_value (this : t) : option AttributeValue := valueCache this.

(** [setValue(value)].  [setterInternal] is abstract; its implementations
    are in subclasses that are not in this tree. *)
Definition setValue (value : SetValueArg) (this : t) : Prog t :=
  this ← set_enabled true this;
  let real := realValue value in
  _ ← call (Buffer_bind (buffer real) ARRAY_BUFFER);
  _ ← call (Attribute_setterInternal (gl this) (location this) real);
  mret (with_valueCache (Some real) this).

End Attribute.

(** ** Uniform setters *)

(** The properties the uniform classes of this tree read; they are declared
    in base classes that are not in this tree. *)
Record UniformFields := mkUniformFields {
  u_gl : RawContext;
  u_location : WebGLUniformLocation;
  u_transpose : option bool;
  u_sourceOffset : option Z;
  u_sourceLength : option Z
}.

Module FloatMatrix3x4Uniform.
Definition iterableSetter (this : UniformFields) (value : list number)
    : Prog unit :=
  call (GL_uniformMatrix3x4fv (u_gl this) (u_location this)
          (default false (u_transpose this)) value
          (u_sourceOffset this) (u_sourceLength this)).
End FloatMatrix3x4Uniform.

Module FloatMatrix2x2Uniform.
Definition iterableSetter (this : UniformFields) (value : list number)
    : Prog unit :=
  call (GL_uniformMatrix2fv (u_gl this) (u_location this)
          (default false (u_transpose this)) value
          (u_sourceOffset this) (u_sourceLength this)).
End FloatMatrix2x2Uniform.

Module IntegerVector2Uniform.
Definition iterableSetter (this : UniformFields) (value : list number)
    : Prog unit :=
  call (GL_uniform2iv (u_gl this) (u_location this) value
          (u_sourceOffset this) (u_sourceLength this)).
End IntegerVector2Uniform.

Module FloatVector3Uniform.
Definition iterableSetterInternal (this : UniformFields)
    (value : list number) : Prog unit :=
  call (GL_uniform3fv (u_gl this) (u_location this) value
          (u_sourceOffset this) (u_sourceLength this)).
End FloatVector3Uniform.

Module FloatUniform.
Definition iterableSetter (this : UniformFields) (value : list number)
    : Prog unit :=
  call (GL_uniform1fv (u_gl this) (u_location this) value
          (u_sourceOffset this) (u_sourceLength this)).

Definition setter (this : UniformFields) (value : number) : Prog unit :=
  call (GL_uniform1f (u_gl this) (u_location this) value).
End FloatUniform.

(** ** [AttributeState.use] *)

(** [use(program)].  The program class that file imports is not in this
    tree; of it the method reads [program.attributes], a [Map] from names to
    attribute objects.  An attribute object is never falsy, so [!attribute]
    holds exactly when [Map.get] found nothing.  [attribute.value = this]
    runs the attribute's setter, a call out of this file. *)
Definition AttributeState_use (this : AttributeState.t)
    (attributes : gmap string LegacyAttribute) : Prog unit :=
  match attributes !! AttributeState.name this with
  | None => Throw (JsError "Attribute not found.")
  | Some attribute => call (LegacyAttribute_set_value attribute this)
  end.

(** ** Observations on runs *)

(** Number of calls in a trace that satisfy [f]. *)
Definition count (f : NativeCall -> bool) (t : list NativeCall) : nat :=
  length (filter (fun c => Is_true (f c)) t).

Definition is_linkProgram (c : NativeCall) : bool :=
  match c with GL_linkProgram _ _ => true | _ => false end.

Definition is_deleteProgram (c : NativeCall) : bool :=
  match c with GL_deleteProgram _ _ => true | _ => false end.

(** [n] consecutive reads of a getter, threading the wrapper; returns the
    values read, oldest first, and the wrapper after the last read. *)
Fixpoint reads {V W : Type} (get : W -> Prog (V * W)) (n : nat) (this : W)
    : Prog (list V * W) :=
  match n with
  | O => mret ([], this)
  | S n' =>
      r ← get this;
      rest ← reads get n' (snd r);
      mret (fst r :: fst rest, snd rest)
  end.

(** The environment's state after it answered the calls of [t] in order. *)
Fixpoint replay (E : Env) (t : list NativeCall) (s : St E) : St E :=
  match t with
  | [] => s
  | c :: rest => replay E rest (after E c s)
  end.

(** The [bindAttribLocation] calls for a list of attribute locations. *)
Definition bind_calls (g : RawContext) (program : WebGLProgram)
    (attributeLocations : list (string * Z)) : list NativeCall :=
  map (fun nl => GL_bindAttribLocation g program (snd nl) (fst nl))
      attributeLocations.

Definition is_enable_or_disable (c : NativeCall) : bool :=
  match c with
  | GL_enableVertexAttribArray _ _ | GL_disableVertexAttribArray _ _ => true
  | _ => false
  end.

Definition is_setterInternal (c : NativeCall) : bool :=
  match c with Attribute_setterInternal _ _ _ => true | _ => false end.

Definition is_getContext (c : NativeCall) : bool :=
  match c with Canvas_getContext _ _ _ => true | _ => false end.

Definition is_createProgram (c : NativeCall) : bool :=
  match c with GL_createProgram _ => true | _ => false end.



(** [Avoids f p]: no call of the tree [p] satisfies [f], whatever the
    answers. *)
Inductive Avoids {A : Type} (f : NativeCall -> bool) : Prog A -> Prop :=
| Avoids_Ret (a : A) : Avoids f (Ret a)
| Avoids_Throw (e : WrapperError) : Avoids f (Throw e)
| Avoids_Call (c : NativeCall) (k : Resp c -> Prog A) :
    f c = false -> (forall r, Avoids f (k r)) -> Avoids f (Call c k).

(** ** A simulated browser

    A small concrete environment, used to run the wrapper on explicit
    inputs.  It keeps the pieces of native state the wrapper reads back and
    fixed answers for everything else. *)
Record Browser := mkBrowser {
  b_webgl2 : option RawContext;
  b_canvas : Canvas;
  b_drawingBufferColorSpace : PredefinedColorSpace;
  b_unpackColorSpace : PredefinedColorSpace;
  b_activeTexture : Z;
  b_blendColor : Color;
  b_newProgram : option WebGLProgram;
  b_linkStatus : bool;
  b_programInfoLog : option string;
  b_newShader : option WebGLShader;
  b_compileStatus : bool;
  b_shaderInfoLog : option string;
  b_boundVao : option WebGLVertexArrayObject;
  b_attribLocation : Z;
  b_width : Z;
  b_height : Z
}.

Definition Browser_with_drawingBufferColorSpace (v : PredefinedColorSpace)
    (b : Browser) : Browser :=
  mkBrowser (b_webgl2 b) (b_canvas b) v (b_unpackColorSpace b)
    (b_activeTexture b) (b_blendColor b) (b_newProgram b) (b_linkStatus b)
    (b_programInfoLog b) (b_newShader b) (b_compileStatus b)
    (b_shaderInfoLog b) (b_boundVao b) (b_attribLocation b) (b_width b)
    (b_height b).

Definition Browser_with_unpackColorSpace (v : PredefinedColorSpace)
    (b : Browser) : Browser :=
  mkBrowser (b_webgl2 b) (b_canvas b) (b_drawingBufferColorSpace b) v
    (b_activeTexture b) (b_blendColor b) (b_newProgram b) (b_linkStatus b)
    (b_programInfoLog b) (b_newShader b) (b_compileStatus b)
    (b_shaderInfoLog b) (b_boundVao b) (b_attribLocation b) (b_width b)
    (b_height b).

Definition Browser_with_activeTexture (v : Z) (b : Browser) : Browser :=
  mkBrowser (b_webgl2 b) (b_canvas b) (b_drawingBufferColorSpace b)
    (b_unpackColorSpace b) v (b_blendColor b) (b_newProgram b)
    (b_linkStatus b) (b_programInfoLog b) (b_newShader b) (b_compileStatus b)
    (b_shaderInfoLog b) (b_boundVao b) (b_attribLocation b) (b_width b)
    (b_height b).

Definition Browser_with_blendColor (v : Color) (b : Browser) : Browser :=
  mkBrowser (b_webgl2 b) (b_canvas b) (b_drawingBufferColorSpace b)
    (b_unpackColorSpace b) (b_activeTexture b) v (b_newProgram b)
    (b_linkStatus b) (b_programInfoLog b) (b_newShader b) (b_compileStatus b)
    (b_shaderInfoLog b) (b_boundVao b) (b_attribLocation b) (b_width b)
    (b_height b).

Definition Browser_respond (c : NativeCall) (b : Browser) : Resp c * Browser :=
  match c as c' return Resp c' * Browser with
  | Canvas_getContext _ _ _ => (b_webgl2 b, b)
  | GL_canvas _ => (b_canvas b, b)
  | GL_get_drawingBufferColorSpace _ => (b_drawingBufferColorSpace b, b)
  | GL_set_drawingBufferColorSpace _ v =>
      (tt, Browser_with_drawingBufferColorSpace v b)
  | GL_get_drawingBufferHeight _ => (b_height b, b)
  | GL_get_drawingBufferWidth _ => (b_width b, b)
  | GL_get_unpackColorSpace _ => (b_unpackColorSpace b, b)
  | GL_set_unpackColorSpace _ v => (tt, Browser_with_unpackColorSpace v b)
  | GL_getParameter _ p =>
      (match p as p' return ParamValue p' with
       | ACTIVE_TEXTURE => b_activeTexture b
       | BLEND_COLOR => b_blendColor b
       end, b)
  | GL_activeTexture _ texture => (tt, Browser_with_activeTexture texture b)
  | GL_blendColor _ r g bl a =>
      (tt, Browser_with_blendColor (mkColor r g bl a) b)
  | GL_createProgram _ => (b_newProgram b, b)
  | GL_attachShader _ _ _ => (tt, b)
  | GL_bindAttribLocation _ _ _ _ => (tt, b)
  | GL_linkProgram _ _ => (tt, b)
  | GL_getProgramParameter _ _ _ => (b_linkStatus b, b)
  | GL_getProgramInfoLog _ _ => (b_programInfoLog b, b)
  | GL_deleteProgram _ _ => (tt, b)
  | GL_getAttribLocation _ _ _ => (b_attribLocation b, b)
  | GL_enableVertexAttribArray _ _ => (tt, b)
  | GL_disableVertexAttribArray _ _ => (tt, b)
  | GL_uniform1f _ _ _ => (tt, b)
  | GL_uniform1fv _ _ _ _ _ => (tt, b)
  | GL_uniform3fv _ _ _ _ _ => (tt, b)
  | GL_uniform2iv _ _ _ _ _ => (tt, b)
  | GL_uniformMatrix2fv _ _ _ _ _ _ => (tt, b)
  | GL_uniformMatrix3x4fv _ _ _ _ _ _ => (tt, b)
  | GL_createShader _ _ => (b_newShader b, b)
  | GL_shaderSource _ _ _ => (tt, b)
  | GL_compileShader _ _ => (tt, b)
  | GL_getShaderParameter _ _ _ => (b_compileStatus b, b)
  | GL_getShaderInfoLog _ _ => (b_shaderInfoLog b, b)
  | Vao_getBound _ => (b_boundVao b, b)
  | Buffer_bind _ _ => (tt, b)
  | Attribute_setterInternal _ _ _ => (tt, b)
  | LegacyAttribute_set_value _ _ => (tt, b)
  end.

Definition BrowserEnv : Env := mkEnv Browser Browser_respond.

(** The simulated browser with no vertex array object ever bound. *)
Definition NoVaoEnv : Env :=
  mkEnv Browser
    (fun c b =>
       match c as c' return Resp c' * Browser -> Resp c' * Browser with
       | Vao_getBound _ => fun _ => (None, b)
       | _ => fun r => r
       end (Browser_respond c b)).

(** A browser with WebGL2 whose driver links and compiles everything; no
    vertex array object is bound. *)
Definition browser0 : Browser :=
  mkBrowser (Some 1%positive) 2%positive srgb srgb TEXTURE0
    (mkColor 0%float 0%float 0%float 0%float)
    (Some 10%positive) true None (Some 20%positive) true None None 0 300 150.

(** A browser without WebGL2. *)
Definition browser_without_webgl2 : Browser :=
  mkBrowser None 2%positive srgb srgb TEXTURE0
    (mkColor 0%float 0%float 0%float 0%float)
    None false None None false None None 0 300 150.

(** A browser whose driver refuses to link, with a diagnostic. *)
Definition browser_link_failure : Browser :=
  mkBrowser (Some 1%positive) 2%positive srgb srgb TEXTURE0
    (mkColor 0%float 0%float 0%float 0%float)
    (Some 10%positive) false (Some "varying mismatch") (Some 20%positive)
    true None None 0 300 150.

(** A browser whose driver refuses to compile, with a diagnostic. *)
Definition browser_compile_failure : Browser :=
  mkBrowser (Some 1%positive) 2%positive srgb srgb TEXTURE0
    (mkColor 0%float 0%float 0%float 0%float)
    (Some 10%positive) true None (Some 20%positive)
    false (Some "syntax error") None 0 300 150.

(** A browser in which vertex array object [7] is bound. *)
Definition browser_vao_bound : Browser :=
  mkBrowser (Some 1%positive) 2%positive srgb srgb TEXTURE0
    (mkColor 0%float 0%float 0%float 0%float)
    (Some 10%positive) true None (Some 20%positive) true None
    (Some 7%positive) 0 300 150.

(** Sample wrappers. *)
Definition context0 : Context.t :=
  Context.mk 1%positive 2%positive None None None None.

Definition context_cached : Context.t :=
  Context.mk 1%positive 2%positive (Some srgb) (Some display_p3) (Some 3)
    (Some (mkColor 0%float 0.5%float 1%float 1%float)).

Definition shader_v : Shader.t := Shader.mk 1%positive VERTEX_SHADER 20%positive.
Definition shader_f : Shader.t := Shader.mk 1%positive FRAGMENT_SHADER 21%positive.

Definition program0 : Program.t :=
  Program.mk 1%positive 10%positive shader_v shader_f.

Definition value0 : AttributeValue :=
  mkAttributeValue 5%positive (Some 3) None None None.

Definition attribute0 : Attribute.t :=
  Attribute.mk 1%positive (mkActiveInfo "a_position" 1 35665) 0 [] None.

(** An attribute already enabled for vertex array object [7] that holds
    [value0] in its value cache. *)
Definition attribute_cached : Attribute.t :=
  Attribute.mk 1%positive (mkActiveInfo "a_position" 1 35665) 0 [7%positive]
    (Some value0).

Definition state0 : AttributeState.t :=
  AttributeState.constructor "a_position" (mkLegacyBuffer 1%positive 5126)
    None None None None.

(** ** The operations of the wrapper other than [Program.delete] *)

Inductive Operation :=
| new_Context (source : ContextSource) (options : option WebGLContextAttributes)
| Context_get_drawingBufferColorSpace (this : Context.t)
| Context_set_drawingBufferColorSpace (value : PredefinedColorSpace)
    (this : Context.t)
| Context_get_drawingBufferHeight (this : Context.t)
| Context_get_drawingBufferWidth (this : Context.t)
| Context_get_unpackColorSpace (this : Context.t)
| Context_set_unpackColorSpace (value : PredefinedColorSpace) (this : Context.t)
| Context_get_activeTexture (this : Context.t)
| Context_set_activeTexture (value : Z) (this : Context.t)
| Context_get_blendColor (this : Context.t)
| Context_set_blendColor (value : Color) (this : Context.t)
| new_Shader (context : Context.t) (type : ShaderType) (source : string)
| new_Program (context : Context.t) (vertexShader fragmentShader : Shader.t)
    (attributeLocations : option (list (string * Z)))
| Program_fromSource (context : Context.t)
    (vertexShaderSource fragmentShaderSource : string)
| Program_get_linkStatus (this : Program.t)
| Program_get_infoLog (this : Program.t)
| new_Attribute (program : Program.t) (activeInfo : WebGLActiveInfo)
| Attribute_get_enabled (this : Attribute.t)
| Attribute_set_enabled (value : bool) (this : Attribute.t)
| Attribute_setValue (value : SetValueArg) (this : Attribute.t)
| FloatMatrix3x4Uniform_iterableSetter (this : UniformFields)
    (value : list number)
| FloatMatrix2x2Uniform_iterableSetter (this : UniformFields)
    (value : list number)
| IntegerVector2Uniform_iterableSetter (this : UniformFields)
    (value : list number)
| FloatVector3Uniform_iterableSetterInternal (this : UniformFields)
    (value : list number)
| FloatUniform_iterableSetter (this : UniformFields) (value : list number)
| FloatUniform_setter (this : UniformFields) (value : number)
| AttributeState_use_op (this : AttributeState.t)
    (attributes : gmap string LegacyAttribute).

(** Run [p] for its calls, dropping what it returns. *)
Definition discard {A : Type} (p : Prog A) : Prog unit := _ ← p; mret tt.

Definition perform (op : Operation) : Prog unit :=
  match op with
  | new_Context source options => discard (Context.constructor source options)
  | Context_get_drawingBufferColorSpace this =>
      discard (Context.get_drawingBufferColorSpace this)
  | Context_set_drawingBufferColorSpace value this =>
      discard (Context.set_drawingBufferColorSpace value this)
  | Context_get_drawingBufferHeight this =>
      discard (Context.get_drawingBufferHeight this)
  | Context_get_drawingBufferWidth this =>
      discard (Context.get_drawingBufferWidth this)
  | Context_get_unpackColorSpace this =>
      discard (Context.get_unpackColorSpace this)
  | Context_set_unpackColorSpace value this =>
      discard (Context.set_unpackColorSpace value this)
  | Context_get_activeTexture this => discard (Context.get_activeTexture this)
  | Context_set_activeTexture value this =>
      discard (Context.set_activeTexture value this)
  | Context_get_blendColor this => discard (Context.get_blendColor this)
  | Context_set_blendColor value this =>
      discard (Context.set_blendColor value this)
  | new_Shader context type source =>
      discard (Shader.constructor context type source)
  | new_Program context vs fs locations =>
      discard (Program.constructor context vs fs locations)
  | Program_fromSource context vs fs =>
      discard (Program.fromSource context vs fs)
  | Program_get_linkStatus this => discard (Program.get_linkStatus this)
  | Program_get_infoLog this => discard (Program.get_infoLog this)
  | new_Attribute program activeInfo =>
      discard (Attribute.constructor program activeInfo)
  | Attribute_get_enabled this => discard (Attribute.get_enabled this)
  | Attribute_set_enabled value this =>
      discard (Attribute.set_enabled value this)
  | Attribute_setValue value this => discard (Attribute.setValue value this)
  | FloatMatrix3x4Uniform_iterableSetter this value =>
      FloatMatrix3x4Uniform.iterableSetter this value
  | FloatMatrix2x2Uniform_iterableSetter this value =>
      FloatMatrix2x2Uniform.iterableSetter this value
  | IntegerVector2Uniform_iterableSetter this value =>
      IntegerVector2Uniform.iterableSetter this value
  | FloatVector3Uniform_iterableSetterInternal this value =>
      FloatVector3Uniform.iterableSetterInternal this value
  | FloatUniform_iterableSetter this value =>
      FloatUniform.iterableSetter this value
  | FloatUniform_setter this value => FloatUniform.setter this value
  | AttributeState_use_op this attributes => AttributeState_use this attributes
  end.

(** A session: operations performed one after the other, stopping at the
    first that throws. *)
Fixpoint perform_all (ops : list Operation) : Prog unit :=
  match ops with
  | [] => mret tt
  | op :: rest => _ ← perform op; perform_all rest
  end.

(** What [n + 1] consecutive reads through the getter [get] do when they
    query the native state at most once: they issue exactly the calls of the
    first read, at most one call, leave the environment where the first
    read left it, and all return the value the first read returned. *)
Definition ReadsOnce {V W : Type} (E : Env) (get : W -> Prog (V * W))
    (this : W) (s : St E) (n : nat) : Prop :=
  let first := run E (get this) s in
  let all := run E (reads get (S n) this) s in
  trace all = trace first
  /\ (length (trace first) <= 1)%nat
  /\ final all = final first
  /\ exists (v : V) (this' : W),
       outcome first = Returned (v, this')
       /\ outcome all = Returned (replicate (S n) v, this').

(** The environment reports no bound vertex array object for the context
    [g], in any state. *)
Definition NoVaoBound (E : Env) (g : RawContext) : Prop :=
  forall s : St E, answer E (Vao_getBound g) s = None.

(** The calls of the [Program] constructor up to and including
    [linkProgram], for the native program [p]. *)
Definition link_prefix (g : RawContext) (p : WebGLProgram)
    (vs fs : Shader.t) (attributeLocations : option (list (string * Z)))
    : list NativeCall :=
  [GL_createProgram g;
   GL_attachShader g p (Shader.internal vs);
   GL_attachShader g p (Shader.internal fs)]
  ++ bind_calls g p (default [] attributeLocations)
  ++ [GL_linkProgram g p].


(** The wrapper that [set enabled(value)] leaves when it does issue its
    call and [Vao.getBound] then answers [vao]. *)
Definition enabled_updated (value : bool)
    (vao : option WebGLVertexArrayObject) (a : Attribute.t) : Attribute.t :=
  match vao with
  | None => a
  | Some v =>
      let cache := Attribute.enabledVaosCache a in
      if value
      then
        if negb (includes cache v)
        then Attribute.with_enabledVaosCache (cache ++ [v]) a
        else a
      else
        if includes cache v
        then Attribute.with_enabledVaosCache (splice1 cache (indexOf cache v)) a
        else a
  end.

(** Reads and writes of the cached properties of a [Context]. *)
Inductive PropertyAccess :=
| Read_drawingBufferColorSpace
| Write_drawingBufferColorSpace (value : PredefinedColorSpace)
| Read_unpackColorSpace
| Write_unpackColorSpace (value : PredefinedColorSpace)
| Read_activeTexture
| Write_activeTexture (value : Z)
| Read_blendColor
| Write_blendColor (value : Color).

(** One access, returning the wrapper it leaves (a value read is dropped). *)
Definition access (op : PropertyAccess) (this : Context.t) : Prog Context.t :=
  match op with
  | Read_drawingBufferColorSpace =>
      r ← Context.get_drawingBufferColorSpace this; mret (snd r)
  | Write_drawingBufferColorSpace v =>
      Context.set_drawingBufferColorSpace v this
  | Read_unpackColorSpace =>
      r ← Context.get_unpackColorSpace this; mret (snd r)
  | Write_unpackColorSpace v => Context.set_unpackColorSpace v this
  | Read_activeTexture => r ← Context.get_activeTexture this; mret (snd r)
  | Write_activeTexture v => Context.set_activeTexture v this
  | Read_blendColor => r ← Context.get_blendColor this; mret (snd r)
  | Write_blendColor v => Context.set_blendColor v this
  end.

(** A sequence of accesses on one wrapper. *)
Fixpoint accesses (ops : list PropertyAccess) (this : Context.t)
    : Prog Context.t :=
  match ops with
  | [] => mret this
  | op :: rest => this' ← access op this; accesses rest this'
  end.

(** The native query behind each lazily cached getter. *)
Definition is_query_drawingBufferColorSpace (c : NativeCall) : bool :=
  match c with GL_get_drawingBufferColorSpace _ => true | _ => false end.

Definition is_query_unpackColorSpace (c : NativeCall) : bool :=
  match c with GL_get_unpackColorSpace _ => true | _ => false end.

Definition is_query_activeTexture (c : NativeCall) : bool :=
  match c with GL_getParameter _ ACTIVE_TEXTURE => true | _ => false end.

Definition is_query_blendColor (c : NativeCall) : bool :=
  match c with GL_getParameter _ BLEND_COLOR => true | _ => false end.

(** [typeof cache != "undefined"] *)
Definition is_Some_b {A : Type} (o : option A) : bool :=
  match o with Some _ => true | None => false end.

(** ** Further observations *)

(** The environment reports [v] as the bound vertex array object of the
    context [g], in any state. *)
Definition VaoBound (E : Env) (g : RawContext) (v : WebGLVertexArrayObject)
    : Prop :=
  forall s : St E, answer E (Vao_getBound g) s = Some v.

(** The simulated browser with vertex array object [7] always bound. *)
Definition VaoEnv : Env :=
  mkEnv Browser
    (fun c b =>
       match c as c' return Resp c' * Browser -> Resp c' * Browser with
       | Vao_getBound _ => fun _ => (Some 7%positive, b)
       | _ => fun r => r
       end (Browser_respond c b)).

(** A colour with a [NaN] component. *)
Definition has_nan (c : Color) : bool :=
  is_nan (c0 c) || is_nan (c1 c) || is_nan (c2 c) || is_nan (c3 c).

(** The native calls behind the cached properties of a [Context], on the
    native context [g]. *)
Definition is_property_call (g : RawContext) (c : NativeCall) : bool :=
  match c with
  | GL_get_drawingBufferColorSpace g' | GL_set_drawingBufferColorSpace g' _
  | GL_get_unpackColorSpace g' | GL_set_unpackColorSpace g' _
  | GL_getParameter g' _ | GL_activeTexture g' _
  | GL_blendColor g' _ _ _ _ => Pos.eqb g g'
  | _ => false
  end.

(** The native values the cached properties mirror, as the environment
    would report them in state [s]. *)
Definition native_drawingBufferColorSpace (E : Env) (g : RawContext)
    (s : St E) : PredefinedColorSpace :=
  answer E (GL_get_drawingBufferColorSpace g) s.

Definition native_unpackColorSpace (E : Env) (g : RawContext) (s : St E)
    : PredefinedColorSpace :=
  answer E (GL_get_unpackColorSpace g) s.

Definition native_activeTexture (E : Env) (g : RawContext) (s : St E) : Z :=
  answer E (GL_getParameter g ACTIVE_TEXTURE) s.

Definition native_blendColor (E : Env) (g : RawContext) (s : St E) : Color :=
  answer E (GL_getParameter g BLEND_COLOR) s.

(** An environment that keeps the four properties of the context [g] like
    a store: each write call sets the value its query reports, and the
    other property calls leave it alone. *)
Record StoreLike (E : Env) (g : RawContext) : Prop := {
  store_drawingBufferColorSpace :
    forall c s, is_property_call g c = true ->
      native_drawingBufferColorSpace E g (after E c s) =
        match c with
        | GL_set_drawingBufferColorSpace _ v => v
        | _ => native_drawingBufferColorSpace E g s
        end;
  store_unpackColorSpace :
    forall c s, is_property_call g c = true ->
      native_unpackColorSpace E g (after E c s) =
        match c with
        | GL_set_unpackColorSpace _ v => v
        | _ => native_unpackColorSpace E g s
        end;
  store_activeTexture :
    forall c s, is_property_call g c = true ->
      native_activeTexture E g (after E c s) =
        match c with
        | GL_activeTexture _ texture => texture
        | _ => native_activeTexture E g s
        end;
  store_blendColor :
    forall c s, is_property_call g c = true ->
      native_blendColor E g (after E c s) =
        match c with
        | GL_blendColor _ r gr b a => mkColor r gr b a
        | _ => native_blendColor E g s
        end
}.

(** Every filled cache of the wrapper holds what the environment would
    report for its property in state [s]. *)
Definition Coherent (E : Env) (s : St E) (this : Context.t) : Prop :=
  (forall v, Context.drawingBufferColorSpaceCache this = Some v ->
     v = native_drawingBufferColorSpace E (Context.gl this) s)
  /\ (forall v, Context.unpackColorSpaceCache this = Some v ->
        v = native_unpackColorSpace E (Context.gl this) s)
  /\ (forall v, Context.activeTextureCache this = Some v ->
        v = native_activeTexture E (Context.gl this) s - TEXTURE0)
  /\ (forall v, Context.blendColorCache this = Some v ->
        v = native_blendColor E (Context.gl this) s).

(** [n] consecutive calls of an operation that returns nothing. *)
Fixpoint repeatedly (n : nat) (p : Prog unit) : Prog unit :=
  match n with
  | O => mret tt
  | S n' => _ ← p; repeatedly n' p
  end.

(** [n] consecutive [delete()] calls on one program. *)
Fixpoint deletes (n : nat) (this : Program.t) : Prog Program.t :=
  match n with
  | O => mret this
  | S n' => this' ← Program.delete this; deletes n' this'
  end.

Definition is_bindAttribLocation (c : NativeCall) : bool :=
  match c with GL_bindAttribLocation _ _ _ _ => true | _ => false end.

Definition is_blendColor (c : NativeCall) : bool :=
  match c with GL_blendColor _ _ _ _ _ => true | _ => false end.

(** The operations of an [Attribute] after its construction. *)
Inductive AttributeAccess :=
| Read_enabled
| Write_enabled (value : bool)
| Call_setValue (value : SetValueArg).

Definition attribute_access (op : AttributeAccess) (this : Attribute.t)
    : Prog Attribute.t :=
  match op with
  | Read_enabled => _ ← Attribute.get_enabled this; mret this
  | Write_enabled value => Attribute.set_enabled value this
  | Call_setValue value => Attribute.setValue value this
  end.

Fixpoint attribute_accesses (ops : list AttributeAccess) (this : Attribute.t)
    : Prog Attribute.t :=
  match ops with
  | [] => mret this
  | op :: rest => this' ← attribute_access op this; attribute_accesses rest this'
  end.

Definition is_Buffer_bind (c : NativeCall) : bool :=
  match c with Buffer_bind _ _ => true | _ => false end.

(** What one read through the lazily cached getter [get] does: on an empty
    cache it issues the native query [q] once, returns the value made of the
    answer and fills the cache with it; on a filled cache it returns the
    cached value and issues nothing; either way the wrapper it leaves has
    the returned value in its cache. *)
Definition LazyRead {V : Type} (E : Env) (s : St E) (this : Context.t)
    (cache : Context.t -> option V) (get : Context.t -> Prog (V * Context.t))
    (q : NativeCall) (value : Resp q -> V)
    (fill : option V -> Context.t -> Context.t) : Prop :=
  (cache this = None ->
     run E (get this) s =
       mkRun
         (Returned (value (answer E q s),
                    fill (Some (value (answer E q s))) this))
         [q] (after E q s))
  /\ (forall v, cache this = Some v ->
        run E (get this) s = mkRun (Returned (v, this)) [] s)
  /\ (forall v this', outcome (run E (get this) s) = Returned (v, this') ->
        cache this' = Some v).

(** * Properties *)

(** ** Runs of composed code *)

Lemma run_bind {A B : Type} (E : Env) (m : Prog A) (f : A -> Prog B)
    (s : St E) :
  run E (bind m f) s =
    match outcome (run E m s) with
    | Returned a =>
        let r := run E (f a) (final (run E m s)) in
        mkRun (outcome r) (trace (run E m s) ++ trace r) (final r)
    | Thrown e => mkRun (Thrown e) (trace (run E m s)) (final (run E m s))
    end.
Proof.
  revert s. induction m as [a | e | c k IH]; intros s; simpl.
  - destruct (run E (f a) s); reflexivity.
  - reflexivity.
  - rewrite IH. destruct (outcome (run E (k (answer E c s)) (after E c s)));
      reflexivity.
Qed.

Lemma run_mbind {A B : Type} (E : Env) (m : Prog A) (f : A -> Prog B)
    (s : St E) :
  run E (m ≫= f) s =
    match outcome (run E m s) with
    | Returned a =>
        let r := run E (f a) (final (run E m s)) in
        mkRun (outcome r) (trace (run E m s) ++ trace r) (final r)
    | Thrown e => mkRun (Thrown e) (trace (run E m s)) (final (run E m s))
    end.
Proof. apply run_bind. Qed.

(** The final state of a run is the replay of its trace. *)
Lemma final_replay {A : Type} (E : Env) (p : Prog A) (s : St E) :
  final (run E p s) = replay E (trace (run E p s)) s.
Proof.
  revert s. induction p as [a | e | c k IH]; intros s; simpl; auto.
Qed.

Lemma replay_app (E : Env) (t1 t2 : list NativeCall) (s : St E) :
  replay E (t1 ++ t2) s = replay E t2 (replay E t1 s).
Proof. revert s. induction t1 as [| c t1 IH]; intros s; simpl; auto. Qed.

(** ** Counting calls *)

Lemma count_nil (f : NativeCall -> bool) : count f [] = 0%nat.
Proof. reflexivity. Qed.

Lemma count_cons (f : NativeCall -> bool) (c : NativeCall)
    (t : list NativeCall) :
  count f (c :: t) = ((if f c then 1 else 0) + count f t)%nat.
Proof.
  unfold count. rewrite filter_cons. destruct (f c); simpl.
  - destruct (decide True) as [_ | n]; [reflexivity | destruct n; exact I].
  - destruct (decide False) as [[] | _]. reflexivity.
Qed.

Lemma count_app (f : NativeCall -> bool) (t1 t2 : list NativeCall) :
  count f (t1 ++ t2) = (count f t1 + count f t2)%nat.
Proof. unfold count. rewrite filter_app, length_app. reflexivity. Qed.

Lemma count_bind_calls (f : NativeCall -> bool) (g : RawContext)
    (p : WebGLProgram) (locations : list (string * Z)) :
  (forall i n, f (GL_bindAttribLocation g p i n) = false) ->
  count f (bind_calls g p locations) = 0%nat.
Proof.
  intros Hf. induction locations as [| [n i] rest IH]; simpl.
  - reflexivity.
  - unfold bind_calls in *. simpl. rewrite count_cons, Hf. exact IH.
Qed.

(** ** Code that never issues a given call *)

Lemma Avoids_bind {A B : Type} (f : NativeCall -> bool) (m : Prog A)
    (k : A -> Prog B) :
  Avoids f m -> (forall a, Avoids f (k a)) -> Avoids f (bind m k).
Proof.
  intros Hm Hk. induction Hm as [a | e | c k' Hc Hk' IH]; simpl.
  - apply Hk.
  - constructor.
  - constructor; [exact Hc | exact IH].
Qed.

Lemma Avoids_mbind {A B : Type} (f : NativeCall -> bool) (m : Prog A)
    (k : A -> Prog B) :
  Avoids f m -> (forall a, Avoids f (k a)) -> Avoids f (m ≫= k).
Proof. apply Avoids_bind. Qed.

Lemma Avoids_call (f : NativeCall -> bool) (c : NativeCall) :
  f c = false -> Avoids f (call c).
Proof. intros Hc. constructor; [exact Hc | intros r; constructor]. Qed.

Lemma Avoids_mret {A : Type} (f : NativeCall -> bool) (a : A) :
  Avoids f (mret a).
Proof. constructor. Qed.

Lemma Avoids_count {A : Type} (f : NativeCall -> bool) (p : Prog A) :
  Avoids f p -> forall (E : Env) (s : St E), count f (trace (run E p s)) = 0%nat.
Proof.
  intros Hp E. induction Hp as [a | e | c k Hc Hk IH]; intros s; simpl.
  - reflexivity.
  - reflexivity.
  - rewrite count_cons, Hc. apply IH.
Qed.

Ltac avoids_step :=
  first
    [ apply Avoids_mbind
    | match goal with
      | |- Avoids ?f (call ?c) => exact (Avoids_call f c eq_refl)
      end
    | apply Avoids_mret
    | apply Avoids_Throw
    | apply Avoids_Ret
    | match goal with
      | |- Avoids _ (match ?x with _ => _ end) => destruct x
      | |- Avoids _ (if ?x then _ else _) => destruct x
      | |- forall _, _ => intro
      end ].

Ltac avoids := repeat avoids_step.

Lemma bindAttribLocations_avoids (f : NativeCall -> bool) (g : RawContext)
    (p : WebGLProgram) (locations : list (string * Z)) :
  (forall i n, f (GL_bindAttribLocation g p i n) = false) ->
  Avoids f (Program.bindAttribLocations g p locations).
Proof.
  intros Hf. induction locations as [| [n i] rest IH]; simpl.
  - constructor.
  - constructor; [apply Hf | intros _; exact IH].
Qed.

Lemma Shader_constructor_avoids_delete (context : Context.t)
    (type : ShaderType) (source : string) :
  Avoids is_deleteProgram (Shader.constructor context type source).
Proof. unfold Shader.constructor. avoids. Qed.

Lemma Program_constructor_avoids_delete (context : Context.t)
    (vs fs : Shader.t) (locations : option (list (string * Z))) :
  Avoids is_deleteProgram (Program.constructor context vs fs locations).
Proof.
  unfold Program.constructor, Program.get_linkStatus, Program.get_infoLog.
  apply Avoids_mbind; [avoids | intros [p |]; [| avoids]].
  do 2 (apply Avoids_mbind; [avoids | intros _]).
  apply Avoids_mbind.
  - destruct locations as [l |]; [| avoids].
    apply bindAttribLocations_avoids. reflexivity.
  - avoids.
Qed.

Lemma perform_avoids_delete (op : Operation) :
  Avoids is_deleteProgram (perform op).
Proof.
  destruct op; simpl; unfold discard;
    try (apply Avoids_mbind; [| intros; apply Avoids_mret]).
  all: try apply Shader_constructor_avoids_delete.
  all: try apply Program_constructor_avoids_delete.
  - unfold Context.constructor, Context.wrap. avoids.
  - unfold Context.get_drawingBufferColorSpace. avoids.
  - unfold Context.set_drawingBufferColorSpace. avoids.
  - unfold Context.get_drawingBufferHeight. avoids.
  - unfold Context.get_drawingBufferWidth. avoids.
  - unfold Context.get_unpackColorSpace. avoids.
  - unfold Context.set_unpackColorSpace. avoids.
  - unfold Context.get_activeTexture. avoids.
  - unfold Context.set_activeTexture. avoids.
  - unfold Context.get_blendColor. avoids.
  - unfold Context.set_blendColor. avoids.
  - unfold Program.fromSource.
    apply Avoids_mbind; [apply Shader_constructor_avoids_delete | intros vs].
    apply Avoids_mbind; [apply Shader_constructor_avoids_delete | intros fs].
    apply Program_constructor_avoids_delete.
  - unfold Program.get_linkStatus. avoids.
  - unfold Program.get_infoLog. avoids.
  - unfold Attribute.constructor. avoids.
  - unfold Attribute.get_enabled. avoids.
  - unfold Attribute.set_enabled, Attribute.get_enabled. avoids.
  - unfold Attribute.setValue, Attribute.set_enabled, Attribute.get_enabled.
    avoids.
  - unfold FloatMatrix3x4Uniform.iterableSetter. avoids.
  - unfold FloatMatrix2x2Uniform.iterableSetter. avoids.
  - unfold IntegerVector2Uniform.iterableSetter. avoids.
  - unfold FloatVector3Uniform.iterableSetterInternal. avoids.
  - unfold FloatUniform.iterableSetter. avoids.
  - unfold FloatUniform.setter. avoids.
  - unfold AttributeState_use. avoids.
Qed.

Lemma perform_all_avoids_delete (ops : list Operation) :
  Avoids is_deleteProgram (perform_all ops).
Proof.
  induction ops as [| op rest IH]; simpl.
  - constructor.
  - apply Avoids_mbind; [apply perform_avoids_delete | intros _; exact IH].
Qed.

(** C6. [Program.delete] forwards exactly one call, [deleteProgram] on the
    wrapper's native program, and returns the wrapper with every field as it
    was; no session of the other wrapper operations, whatever the
    environment answers, issues a [deleteProgram] call. *)
Theorem delete_is_the_only_release (E : Env) (s : St E) :
  (forall this : Program.t,
     run E (Program.delete this) s =
       mkRun (Returned this)
         [GL_deleteProgram (Program.gl this) (Program.internal this)]
         (after E (GL_deleteProgram (Program.gl this) (Program.internal this))
            s))
  /\ (forall this : Program.t,
        count is_deleteProgram (trace (run E (Program.delete this) s)) = 1%nat)
  /\ (forall ops : list Operation,
        count is_deleteProgram (trace (run E (perform_all ops) s)) = 0%nat).
Proof.
  split; [| split].
  - intros this. reflexivity.
  - intros this. reflexivity.
  - intros ops. apply Avoids_count, perform_all_avoids_delete.
Qed.

(** ** Context construction *)


(** C4. Constructing a [Context] from a canvas asks the canvas once for a
    ["webgl2"] context.  It throws an [UnsupportedOperationError] exactly
    when the answer is [null]; on any other answer it returns the wrapper of
    the returned context, with the context's canvas and empty caches. *)
Theorem Context_constructor_unsupported_iff_null (E : Env) (s : St E)
    (canvas : Canvas) (options : option WebGLContextAttributes) :
  let q := Canvas_getContext canvas "webgl2" options in
  let r := run E (Context.constructor (FromCanvas canvas) options) s in
  ((exists m, outcome r = Thrown (UnsupportedOperationError m))
     <-> answer E q s = None)
  /\ (answer E q s = None ->
        outcome r =
          Thrown (UnsupportedOperationError
                    (Some "The environment does not support WebGL2."))
        /\ trace r = [q])
  /\ (forall g : RawContext, answer E q s = Some g ->
        outcome r =
          Returned (Context.mk g (answer E (GL_canvas g) (after E q s))
                      None None None None)
        /\ trace r = [q; GL_canvas g]).
Proof.
  intros q r. subst q r. unfold Context.constructor, Context.wrap. simpl.
  destruct (answer E (Canvas_getContext canvas "webgl2" options) s)
    as [g |] eqn:Hans; simpl.
  - split; [| split].
    + split; [intros [m Hm]; discriminate Hm | intros H; discriminate H].
    + intros H; discriminate H.
    + intros g' Hg'. injection Hg' as <-. split; reflexivity.
  - split; [| split].
    + split; [reflexivity | intros _; eexists; reflexivity].
    + intros _. split; reflexivity.
    + intros g' Hg'. discriminate Hg'.
Qed.

Lemma Context_constructor_unsupported_iff_null_witness :
  answer BrowserEnv (Canvas_getContext 2%positive "webgl2" None)
    browser_without_webgl2 = None
  /\ outcome (run BrowserEnv (Context.constructor (FromCanvas 2%positive) None)
                browser_without_webgl2) =
       Thrown (UnsupportedOperationError
                 (Some "The environment does not support WebGL2."))
  /\ answer BrowserEnv (Canvas_getContext 2%positive "webgl2" None) browser0 =
       Some 1%positive
  /\ outcome (run BrowserEnv (Context.constructor (FromCanvas 2%positive) None)
                browser0) =
       Returned (Context.mk 1%positive 2%positive None None None None).
Proof.
  pose proof (Context_constructor_unsupported_iff_null BrowserEnv
                browser_without_webgl2 2%positive None) as H1.
  pose proof (Context_constructor_unsupported_iff_null BrowserEnv
                browser0 2%positive None) as H2.
  cbv zeta in H1, H2.
  destruct H1 as (_ & H1 & _). destruct H2 as (_ & _ & H2).
  split; [reflexivity |].
  split; [apply H1; reflexivity |].
  split; [reflexivity |].
  apply (H2 1%positive). reflexivity.
Defined.

(** ** [AttributeState.use] *)

(** C10. [use] throws the error ["Attribute not found."] exactly when the
    program's attribute map has no entry under the state's name, and then
    issues no call; when the map has an entry, [use] assigns the state as
    the value of that attribute (one assignment) and returns. *)
Theorem AttributeState_use_throws_iff_missing (E : Env) (s : St E)
    (this : AttributeState.t) (attributes : gmap string LegacyAttribute) :
  let r := run E (AttributeState_use this attributes) s in
  ((exists e, outcome r = Thrown e)
     <-> attributes !! AttributeState.name this = None)
  /\ (attributes !! AttributeState.name this = None ->
        r = mkRun (Thrown (JsError "Attribute not found.")) [] s)
  /\ (forall attribute : LegacyAttribute,
        attributes !! AttributeState.name this = Some attribute ->
        r = mkRun (Returned tt) [LegacyAttribute_set_value attribute this]
              (after E (LegacyAttribute_set_value attribute this) s)).
Proof.
  intros r. subst r. unfold AttributeState_use.
  destruct (attributes !! AttributeState.name this) as [a |] eqn:Hget.
  - split; [| split].
    + split; [intros [e He]; discriminate He | intros H; discriminate H].
    + intros H; discriminate H.
    + intros a' Ha'. injection Ha' as <-. simpl.
      destruct (answer E (LegacyAttribute_set_value a this) s). reflexivity.
  - split; [| split].
    + split; [reflexivity | intros _; eexists; reflexivity].
    + intros _. reflexivity.
    + intros a' Ha'. discriminate Ha'.
Qed.

Lemma AttributeState_use_throws_iff_missing_witness :
  outcome (run BrowserEnv (AttributeState_use state0 ∅) browser0) =
    Thrown (JsError "Attribute not found.")
  /\ run BrowserEnv
       (AttributeState_use state0 {[ "a_position" := 9%positive ]}) browser0 =
       mkRun (E := BrowserEnv) (Returned tt)
         [LegacyAttribute_set_value 9%positive state0] browser0.
Proof.
  pose proof (AttributeState_use_throws_iff_missing BrowserEnv browser0 state0
                ∅) as H1.
  pose proof (AttributeState_use_throws_iff_missing BrowserEnv browser0 state0
                {[ "a_position" := 9%positive ]}) as H2.
  cbv zeta in H1, H2.
  destruct H1 as (_ & H1 & _). destruct H2 as (_ & _ & H2).
  split.
  - rewrite H1; [reflexivity | apply lookup_empty].
  - apply (H2 9%positive). apply lookup_singleton_eq.
Defined.

(** ** Lazily cached getters *)

Section LazyGetter.

Context {V W : Type} (cache : W -> option V) (get : W -> Prog (V * W)).

(** A getter is lazily cached when a filled cache is returned as it is, and
    an empty one is filled from the answer to a single native query. *)
Hypothesis get_hit : forall w v, cache w = Some v -> get w = Ret (v, w).
Hypothesis get_miss :
  forall w, cache w = None ->
    exists (q : NativeCall) (f : Resp q -> V) (fill : V -> W),
      get w = Call q (fun r => Ret (f r, fill (f r)))
      /\ forall v, cache (fill v) = Some v.

Lemma reads_cached (E : Env) (s : St E) (n : nat) (w : W) (v : V) :
  cache w = Some v ->
  run E (reads get n w) s = mkRun (Returned (replicate n v, w)) [] s.
Proof.
  intros Hc. induction n as [| n IH]; simpl.
  - reflexivity.
  - rewrite run_mbind, (get_hit _ _ Hc). simpl.
    rewrite run_mbind, IH. reflexivity.
Qed.

Lemma get_fills (E : Env) (s : St E) (w : W) :
  exists (v : V) (w' : W),
    outcome (run E (get w) s) = Returned (v, w')
    /\ cache w' = Some v
    /\ (length (trace (run E (get w) s)) <= 1)%nat.
Proof.
  destruct (cache w) as [v |] eqn:Hc.
  - exists v, w. rewrite (get_hit _ _ Hc). simpl. auto.
  - destruct (get_miss _ Hc) as (q & f & fill & Hget & Hfill).
    exists (f (answer E q s)), (fill (f (answer E q s))).
    rewrite Hget. simpl. auto.
Qed.

Lemma reads_once (E : Env) (s : St E) (n : nat) (w : W) :
  ReadsOnce E get w s n.
Proof.
  unfold ReadsOnce.
  destruct (get_fills E s w) as (v & w' & Hout & Hc & Hlen).
  simpl. rewrite run_mbind, Hout. simpl.
  rewrite run_mbind, (reads_cached E _ n w' v Hc). simpl.
  rewrite app_nil_r. repeat split; auto.
  exists v, w'. split; reflexivity.
Qed.

End LazyGetter.

(** *** Sessions of reads and writes *)

Section QueryOnce.

Context (P : NativeCall -> bool) (filled : Context.t -> bool).

(** Every access returns; it issues the query [P] at most once, not at all
    on a filled cache, and a cache once filled stays filled. *)
Hypothesis access_step :
  forall (E : Env) (s : St E) (op : PropertyAccess) (this : Context.t),
    exists this' : Context.t,
      outcome (run E (access op this) s) = Returned this'
      /\ (count P (trace (run E (access op this) s)) <= 1)%nat
      /\ (filled this = true ->
            filled this' = true
            /\ count P (trace (run E (access op this) s)) = 0%nat)
      /\ (count P (trace (run E (access op this) s)) = 1%nat ->
            filled this' = true).

Lemma accesses_filled (E : Env) (ops : list PropertyAccess) (s : St E)
    (this : Context.t) :
  filled this = true ->
  count P (trace (run E (accesses ops this) s)) = 0%nat.
Proof.
  revert s this. induction ops as [| op rest IH]; intros s this Hf; simpl.
  - reflexivity.
  - rewrite run_mbind.
    destruct (access_step E s op this) as (this' & Hout & _ & Hfilled & _).
    destruct (Hfilled Hf) as [Hf' Hzero].
    rewrite Hout. cbn [trace]. cbv zeta.
    rewrite count_app, Hzero, (IH _ this' Hf'). reflexivity.
Qed.

Lemma accesses_query_once (E : Env) (ops : list PropertyAccess) (s : St E)
    (this : Context.t) :
  (count P (trace (run E (accesses ops this) s)) <= 1)%nat.
Proof.
  revert s this. induction ops as [| op rest IH]; intros s this; simpl.
  - change (0 <= 1)%nat. lia.
  - rewrite run_mbind.
    destruct (access_step E s op this) as (this' & Hout & Hle & _ & Hone).
    rewrite Hout. cbn [trace]. cbv zeta. rewrite count_app.
    destruct (decide (count P (trace (run E (access op this) s)) = 1%nat))
      as [Heq | Hne].
    + rewrite (accesses_filled E rest _ this' (Hone Heq)). lia.
    + specialize (IH (final (run E (access op this) s)) this'). lia.
Qed.

End QueryOnce.

Ltac access_cases :=
  intros E s op [g cv dbcs unpack active blend];
  destruct op; unfold access, Context.get_drawingBufferColorSpace,
    Context.set_drawingBufferColorSpace, Context.get_unpackColorSpace,
    Context.set_unpackColorSpace, Context.get_activeTexture,
    Context.set_activeTexture, Context.get_blendColor, Context.set_blendColor;
  cbn [Context.drawingBufferColorSpaceCache Context.unpackColorSpaceCache
       Context.activeTextureCache Context.blendColorCache];
  repeat match goal with
         | |- context [match ?x with Some _ => _ | None => _ end] => destruct x
         | |- context [if ?b then _ else _] => destruct b
         end;
  simpl; rewrite ?count_cons, ?count_nil; simpl;
  eexists; (split; [reflexivity |]); simpl;
  repeat split; auto; try discriminate; try lia.

Lemma access_step_drawingBufferColorSpace :
  forall (E : Env) (s : St E) (op : PropertyAccess) (this : Context.t),
    exists this' : Context.t,
      outcome (run E (access op this) s) = Returned this'
      /\ (count is_query_drawingBufferColorSpace
            (trace (run E (access op this) s)) <= 1)%nat
      /\ (is_Some_b (Context.drawingBufferColorSpaceCache this) = true ->
            is_Some_b (Context.drawingBufferColorSpaceCache this') = true
            /\ count is_query_drawingBufferColorSpace
                 (trace (run E (access op this) s)) = 0%nat)
      /\ (count is_query_drawingBufferColorSpace
            (trace (run E (access op this) s)) = 1%nat ->
          is_Some_b (Context.drawingBufferColorSpaceCache this') = true).
Proof. access_cases. Qed.

Lemma access_step_unpackColorSpace :
  forall (E : Env) (s : St E) (op : PropertyAccess) (this : Context.t),
    exists this' : Context.t,
      outcome (run E (access op this) s) = Returned this'
      /\ (count is_query_unpackColorSpace
            (trace (run E (access op this) s)) <= 1)%nat
      /\ (is_Some_b (Context.unpackColorSpaceCache this) = true ->
            is_Some_b (Context.unpackColorSpaceCache this') = true
            /\ count is_query_unpackColorSpace
                 (trace (run E (access op this) s)) = 0%nat)
      /\ (count is_query_unpackColorSpace
            (trace (run E (access op this) s)) = 1%nat ->
          is_Some_b (Context.unpackColorSpaceCache this') = true).
Proof. access_cases. Qed.

Lemma access_step_activeTexture :
  forall (E : Env) (s : St E) (op : PropertyAccess) (this : Context.t),
    exists this' : Context.t,
      outcome (run E (access op this) s) = Returned this'
      /\ (count is_query_activeTexture
            (trace (run E (access op this) s)) <= 1)%nat
      /\ (is_Some_b (Context.activeTextureCache this) = true ->
            is_Some_b (Context.activeTextureCache this') = true
            /\ count is_query_activeTexture
                 (trace (run E (access op this) s)) = 0%nat)
      /\ (count is_query_activeTexture
            (trace (run E (access op this) s)) = 1%nat ->
          is_Some_b (Context.activeTextureCache this') = true).
Proof. access_cases. Qed.

Lemma access_step_blendColor :
  forall (E : Env) (s : St E) (op : PropertyAccess) (this : Context.t),
    exists this' : Context.t,
      outcome (run E (access op this) s) = Returned this'
      /\ (count is_query_blendColor
            (trace (run E (access op this) s)) <= 1)%nat
      /\ (is_Some_b (Context.blendColorCache this) = true ->
            is_Some_b (Context.blendColorCache this') = true
            /\ count is_query_blendColor
                 (trace (run E (access op this) s)) = 0%nat)
      /\ (count is_query_blendColor
            (trace (run E (access op this) s)) = 1%nat ->
          is_Some_b (Context.blendColorCache this') = true).
Proof. access_cases. Qed.

(** C5. For each lazily cached property of [Context], any number of
    consecutive reads issues the calls of the first read only, which is at
    most one native query; every read returns the value the first one
    returned, and the wrapper after the reads is the one the first read
    left.  More generally, in any sequence of reads and writes of these
    properties on one wrapper, the native query of each property is issued
    at most once.  The first read does populate the cache: on an empty
    cache each getter issues its native query exactly once, returns the
    answer ([getParameter(ACTIVE_TEXTURE) - TEXTURE0] for the active
    texture) and leaves a wrapper whose cache holds that value; on a filled
    cache it returns the cached value and issues no call. *)
Theorem lazy_getters_query_at_most_once (E : Env) (s : St E) (n : nat)
    (this : Context.t) :
  ReadsOnce E Context.get_drawingBufferColorSpace this s n
  /\ ReadsOnce E Context.get_unpackColorSpace this s n
  /\ ReadsOnce E Context.get_activeTexture this s n
  /\ ReadsOnce E Context.get_blendColor this s n
  /\ (forall ops : list PropertyAccess,
        let t := trace (run E (accesses ops this) s) in
        (count is_query_drawingBufferColorSpace t <= 1)%nat
        /\ (count is_query_unpackColorSpace t <= 1)%nat
        /\ (count is_query_activeTexture t <= 1)%nat
        /\ (count is_query_blendColor t <= 1)%nat)
  /\ LazyRead E s this Context.drawingBufferColorSpaceCache
       Context.get_drawingBufferColorSpace
       (GL_get_drawingBufferColorSpace (Context.gl this)) (fun r => r)
       Context.with_drawingBufferColorSpaceCache
  /\ LazyRead E s this Context.unpackColorSpaceCache
       Context.get_unpackColorSpace
       (GL_get_unpackColorSpace (Context.gl this)) (fun r => r)
       Context.with_unpackColorSpaceCache
  /\ LazyRead E s this Context.activeTextureCache Context.get_activeTexture
       (GL_getParameter (Context.gl this) ACTIVE_TEXTURE)
       (fun r : Z => r - TEXTURE0) Context.with_activeTextureCache
  /\ LazyRead E s this Context.blendColorCache Context.get_blendColor
       (GL_getParameter (Context.gl this) BLEND_COLOR) (fun r => r)
       Context.with_blendColorCache.
Proof.
  split; [| split; [| split; [| split; [| split; [| split; [| split;
    [| split]]]]]]].
  - apply (reads_once Context.drawingBufferColorSpaceCache).
    + intros w v Hc. unfold Context.get_drawingBufferColorSpace.
      rewrite Hc. reflexivity.
    + intros w Hc. unfold Context.get_drawingBufferColorSpace. rewrite Hc.
      exists (GL_get_drawingBufferColorSpace (Context.gl w)), (fun r => r),
        (fun v => Context.with_drawingBufferColorSpaceCache (Some v) w).
      split; reflexivity.
  - apply (reads_once Context.unpackColorSpaceCache).
    + intros w v Hc. unfold Context.get_unpackColorSpace.
      rewrite Hc. reflexivity.
    + intros w Hc. unfold Context.get_unpackColorSpace. rewrite Hc.
      exists (GL_get_unpackColorSpace (Context.gl w)), (fun r => r),
        (fun v => Context.with_unpackColorSpaceCache (Some v) w).
      split; reflexivity.
  - apply (reads_once Context.activeTextureCache).
    + intros w v Hc. unfold Context.get_activeTexture.
      rewrite Hc. reflexivity.
    + intros w Hc. unfold Context.get_activeTexture. rewrite Hc.
      exists (GL_getParameter (Context.gl w) ACTIVE_TEXTURE),
        (fun r : Z => r - TEXTURE0),
        (fun v => Context.with_activeTextureCache (Some v) w).
      split; reflexivity.
  - apply (reads_once Context.blendColorCache).
    + intros w v Hc. unfold Context.get_blendColor.
      rewrite Hc. reflexivity.
    + intros w Hc. unfold Context.get_blendColor. rewrite Hc.
      exists (GL_getParameter (Context.gl w) BLEND_COLOR), (fun r => r),
        (fun v => Context.with_blendColorCache (Some v) w).
      split; reflexivity.
  - intros ops t. subst t. split; [| split; [| split]].
    + apply (accesses_query_once _ _ access_step_drawingBufferColorSpace).
    + apply (accesses_query_once _ _ access_step_unpackColorSpace).
    + apply (accesses_query_once _ _ access_step_activeTexture).
    + apply (accesses_query_once _ _ access_step_blendColor).
  - unfold LazyRead, Context.get_drawingBufferColorSpace.
    split; [| split].
    + intros Hc. rewrite Hc. reflexivity.
    + intros v Hc. rewrite Hc. reflexivity.
    + intros v this'.
      destruct (Context.drawingBufferColorSpaceCache this) as [c |] eqn:Hc;
        simpl; intros Hout; injection Hout as <- <-;
        [exact Hc | reflexivity].
  - unfold LazyRead, Context.get_unpackColorSpace. split; [| split].
    + intros Hc. rewrite Hc. reflexivity.
    + intros v Hc. rewrite Hc. reflexivity.
    + intros v this'.
      destruct (Context.unpackColorSpaceCache this) as [c |] eqn:Hc;
        simpl; intros Hout; injection Hout as <- <-;
        [exact Hc | reflexivity].
  - unfold LazyRead, Context.get_activeTexture. split; [| split].
    + intros Hc. rewrite Hc. reflexivity.
    + intros v Hc. rewrite Hc. reflexivity.
    + intros v this'.
      destruct (Context.activeTextureCache this) as [c |] eqn:Hc;
        simpl; intros Hout; injection Hout as <- <-;
        [exact Hc | reflexivity].
  - unfold LazyRead, Context.get_blendColor. split; [| split].
    + intros Hc. rewrite Hc. reflexivity.
    + intros v Hc. rewrite Hc. reflexivity.
    + intros v this'.
      destruct (Context.blendColorCache this) as [c |] eqn:Hc;
        simpl; intros Hout; injection Hout as <- <-;
        [exact Hc | reflexivity].
Qed.

Lemma lazy_getters_query_at_most_once_witness :
  run BrowserEnv (Context.get_blendColor context0) browser0 =
    mkRun (E := BrowserEnv)
      (Returned
         (mkColor 0%float 0%float 0%float 0%float,
          Context.with_blendColorCache
            (Some (mkColor 0%float 0%float 0%float 0%float)) context0))
      [GL_getParameter 1%positive BLEND_COLOR] browser0
  /\ run BrowserEnv (Context.get_activeTexture context0)
       (Browser_with_activeTexture (2 + TEXTURE0) browser0) =
       mkRun (E := BrowserEnv)
         (Returned (2, Context.with_activeTextureCache (Some 2) context0))
         [GL_getParameter 1%positive ACTIVE_TEXTURE]
         (Browser_with_activeTexture (2 + TEXTURE0) browser0)
  /\ run BrowserEnv (Context.get_drawingBufferColorSpace context_cached)
       browser0 =
       mkRun (E := BrowserEnv) (Returned (srgb, context_cached)) [] browser0.
Proof.
  destruct (lazy_getters_query_at_most_once BrowserEnv browser0 0 context0)
    as (_ & _ & _ & _ & _ & _ & _ & _ & (Hblend & _)).
  destruct (lazy_getters_query_at_most_once BrowserEnv
              (Browser_with_activeTexture (2 + TEXTURE0) browser0) 0 context0)
    as (_ & _ & _ & _ & _ & _ & _ & (Hactive & _) & _).
  destruct (lazy_getters_query_at_most_once BrowserEnv browser0 0
              context_cached)
    as (_ & _ & _ & _ & _ & (_ & Hcached & _) & _).
  split; [apply Hblend; reflexivity |].
  split; [apply Hactive; reflexivity |].
  apply (Hcached srgb). reflexivity.
Defined.


(** ** The active texture unit *)

(** C9. [Context.activeTexture] speaks zero-based unit indices.  When the
    setter does issue its call, the call is [activeTexture(value +
    TEXTURE0)] and the cache becomes [value]; on an empty cache the getter
    returns [getParameter(ACTIVE_TEXTURE) - TEXTURE0] and caches it; a read
    that follows a write on the same wrapper returns the index written; and
    if the environment reports as [ACTIVE_TEXTURE] the enum the setter sent,
    a wrapper of the same context with an empty cache reads the written
    index back as well. *)
Theorem activeTexture_unit_index_roundtrip (E : Env) (s : St E)
    (this : Context.t) (value : Z) :
  let g := Context.gl this in
  let write := GL_activeTexture g (value + TEXTURE0) in
  let query := GL_getParameter g ACTIVE_TEXTURE in
  (Context.activeTextureCache this <> Some value ->
     run E (Context.set_activeTexture value this) s =
       mkRun (Returned (Context.with_activeTextureCache (Some value) this))
         [write] (after E write s))
  /\ (Context.activeTextureCache this = None ->
        run E (Context.get_activeTexture this) s =
          mkRun
            (Returned
               (answer E query s - TEXTURE0,
                Context.with_activeTextureCache
                  (Some (answer E query s - TEXTURE0)) this))
            [query] (after E query s))
  /\ (exists this' : Context.t,
        outcome (run E (this' ← Context.set_activeTexture value this;
                        Context.get_activeTexture this') s) =
          Returned (value, this')
        /\ Context.activeTextureCache this' = Some value)
  /\ (Context.activeTextureCache this <> Some value ->
      answer E query (after E write s) = value + TEXTURE0 ->
      outcome (run E (_ ← Context.set_activeTexture value this;
                      Context.get_activeTexture
                        (Context.with_activeTextureCache None this)) s) =
        Returned (value, Context.with_activeTextureCache (Some value) this)).
Proof.
  intros g write query. subst g write query.
  assert (Hset : Context.activeTextureCache this <> Some value ->
            Context.set_activeTexture value this =
              (_ ← call (GL_activeTexture (Context.gl this) (value + TEXTURE0));
               mret (Context.with_activeTextureCache (Some value) this))).
  { intros Hne. unfold Context.set_activeTexture.
    destruct (Context.activeTextureCache this) as [c |]; [| reflexivity].
    destruct (Z.eqb_spec c value) as [-> | _]; [| reflexivity].
    destruct Hne. reflexivity. }
  split; [| split; [| split]].
  - intros Hne. rewrite (Hset Hne). reflexivity.
  - intros Hc. unfold Context.get_activeTexture. rewrite Hc. reflexivity.
  - destruct (decide (Context.activeTextureCache this = Some value))
      as [Hc | Hne].
    + exists this. split; [| exact Hc].
      unfold Context.set_activeTexture, Context.get_activeTexture.
      rewrite Hc, Z.eqb_refl. simpl. rewrite Hc. reflexivity.
    + exists (Context.with_activeTextureCache (Some value) this).
      split; [| reflexivity]. rewrite (Hset Hne). reflexivity.
  - intros Hne Henv. rewrite (Hset Hne). simpl.
    unfold answer, after in *. simpl in *. rewrite Henv.
    replace (value + TEXTURE0 - TEXTURE0) with value by lia. reflexivity.
Qed.

Lemma activeTexture_unit_index_roundtrip_witness :
  run BrowserEnv (Context.set_activeTexture 4 context0) browser0 =
    mkRun (E := BrowserEnv)
      (Returned (Context.with_activeTextureCache (Some 4) context0))
      [GL_activeTexture 1%positive (4 + TEXTURE0)]
      (Browser_with_activeTexture (4 + TEXTURE0) browser0)
  /\ outcome (run BrowserEnv (Context.get_activeTexture context0) browser0) =
       Returned (0, Context.with_activeTextureCache (Some 0) context0)
  /\ outcome (run BrowserEnv
                (_ ← Context.set_activeTexture 4 context0;
                 Context.get_activeTexture
                   (Context.with_activeTextureCache None context0)) browser0) =
       Returned (4, Context.with_activeTextureCache (Some 4) context0).
Proof.
  pose proof (activeTexture_unit_index_roundtrip BrowserEnv browser0 context0 4)
    as H.
  cbv zeta in H. destruct H as (H1 & H2 & _ & H4).
  split; [| split].
  - apply H1. discriminate.
  - rewrite H2; reflexivity.
  - apply H4; [discriminate | reflexivity].
Defined.

(** ** Program construction *)

Lemma run_bindAttribLocations (E : Env) (g : RawContext) (p : WebGLProgram)
    (locations : list (string * Z)) (s : St E) :
  run E (Program.bindAttribLocations g p locations) s =
    mkRun (Returned tt) (bind_calls g p locations)
      (replay E (bind_calls g p locations) s).
Proof.
  revert s. induction locations as [| [n i] rest IH]; intros s; simpl.
  - reflexivity.
  - rewrite IH. reflexivity.
Qed.


(** The run of the constructor when [createProgram] answers the program
    [p]: the calls up to [linkProgram], then the status query, and on a
    false status the diagnostic query. *)
Lemma run_Program_constructor_created (E : Env) (s : St E)
    (context : Context.t) (vs fs : Shader.t)
    (locations : option (list (string * Z))) (p : WebGLProgram) :
  answer E (GL_createProgram (Context.gl context)) s = Some p ->
  let g := Context.gl context in
  let pre := link_prefix g p vs fs locations in
  let s1 := replay E pre s in
  let status := GL_getProgramParameter g p LINK_STATUS in
  let log := GL_getProgramInfoLog g p in
  run E (Program.constructor context vs fs locations) s =
    if answer E status s1
    then mkRun (Returned (Program.mk g p vs fs)) (pre ++ [status])
           (after E status s1)
    else mkRun (Thrown (ProgramLinkError (answer E log (after E status s1))))
           (pre ++ [status; log]) (after E log (after E status s1)).
Proof.
  intros Hp g pre s1 status log. subst g pre s1 status log.
  unfold Program.constructor, ContextDependent_constructor, link_prefix.
  simpl. rewrite Hp. simpl. rewrite run_mbind.
  assert (Hlocs :
    run E (match locations with
           | Some l => Program.bindAttribLocations (Context.gl context) p l
           | None => mret ()
           end)
      (after E (GL_attachShader (Context.gl context) p (Shader.internal fs))
         (after E (GL_attachShader (Context.gl context) p (Shader.internal vs))
            (after E (GL_createProgram (Context.gl context)) s))) =
    mkRun (Returned tt)
      (bind_calls (Context.gl context) p (default [] locations))
      (replay E (bind_calls (Context.gl context) p (default [] locations))
         (after E (GL_attachShader (Context.gl context) p (Shader.internal fs))
            (after E (GL_attachShader (Context.gl context) p
                        (Shader.internal vs))
               (after E (GL_createProgram (Context.gl context)) s))))).
  { destruct locations as [l |]; simpl.
    - apply run_bindAttribLocations.
    - reflexivity. }
  rewrite Hlocs. simpl. rewrite !replay_app. simpl.
  destruct (answer E
              (GL_getProgramParameter (Context.gl context) p LINK_STATUS) _);
    simpl; rewrite <- !app_assoc; reflexivity.
Qed.

Lemma count_link_prefix (g : RawContext) (p : WebGLProgram) (vs fs : Shader.t)
    (locations : option (list (string * Z))) :
  count is_linkProgram (link_prefix g p vs fs locations) = 1%nat
  /\ count is_createProgram (link_prefix g p vs fs locations) = 1%nat.
Proof.
  unfold link_prefix. rewrite !count_app, !count_cons, !count_nil. simpl.
  rewrite !count_bind_calls by reflexivity. split; reflexivity.
Qed.

(** C3. Once [createProgram] has answered a program, the constructor issues
    [linkProgram] exactly once and then reads the link status.  It throws a
    [ProgramLinkError] exactly when that status is false, and the error then
    carries what [getProgramInfoLog] answers ([None] for [null]); when the
    status is true it returns the wrapper of the program and the two
    shaders. *)
Theorem Program_constructor_link_error_iff_status_false (E : Env) (s : St E)
    (context : Context.t) (vs fs : Shader.t)
    (locations : option (list (string * Z))) (p : WebGLProgram) :
  answer E (GL_createProgram (Context.gl context)) s = Some p ->
  let g := Context.gl context in
  let r := run E (Program.constructor context vs fs locations) s in
  let linked := replay E (link_prefix g p vs fs locations) s in
  let status := answer E (GL_getProgramParameter g p LINK_STATUS) linked in
  let log :=
    answer E (GL_getProgramInfoLog g p)
      (after E (GL_getProgramParameter g p LINK_STATUS) linked) in
  count is_linkProgram (trace r) = 1%nat
  /\ ((exists m, outcome r = Thrown (ProgramLinkError m)) <-> status = false)
  /\ (status = false ->
        outcome r = Thrown (ProgramLinkError log)
        /\ trace r =
             link_prefix g p vs fs locations
             ++ [GL_getProgramParameter g p LINK_STATUS;
                 GL_getProgramInfoLog g p])
  /\ (status = true ->
        outcome r = Returned (Program.mk g p vs fs)
        /\ trace r =
             link_prefix g p vs fs locations
             ++ [GL_getProgramParameter g p LINK_STATUS]).
Proof.
  intros Hp g r linked status log. subst r.
  rewrite (run_Program_constructor_created E s context vs fs locations p Hp).
  cbv zeta. fold g. fold linked. fold status. fold log.
  destruct (count_link_prefix g p vs fs locations) as [Hlink _].
  destruct status; cbn [outcome trace].
  - split; [| split; [| split]].
    + rewrite count_app, Hlink. reflexivity.
    + split; [intros [m Hm]; discriminate Hm | intros H; discriminate H].
    + intros H; discriminate H.
    + intros _. split; reflexivity.
  - split; [| split; [| split]].
    + rewrite count_app, Hlink. reflexivity.
    + split; [reflexivity | intros _; eexists; reflexivity].
    + intros _. split; reflexivity.
    + intros H; discriminate H.
Qed.

Lemma Program_constructor_link_error_iff_status_false_witness :
  outcome (run BrowserEnv
             (Program.constructor context0 shader_v shader_f
                (Some [("a_position", 0); ("a_color", 1)]))
             browser_link_failure) =
    Thrown (ProgramLinkError (Some "varying mismatch"))
  /\ outcome (run BrowserEnv
                (Program.constructor context0 shader_v shader_f None)
                browser0) =
       Returned program0.
Proof.
  pose proof (Program_constructor_link_error_iff_status_false BrowserEnv
                browser_link_failure context0 shader_v shader_f
                (Some [("a_position", 0); ("a_color", 1)]) 10%positive
                eq_refl) as H1.
  pose proof (Program_constructor_link_error_iff_status_false BrowserEnv
                browser0 context0 shader_v shader_f None 10%positive eq_refl)
    as H2.
  cbv zeta in H1, H2.
  destruct H1 as (_ & _ & H1 & _). destruct H2 as (_ & _ & _ & H2).
  split.
  - apply H1. reflexivity.
  - apply H2. reflexivity.
Defined.

(** ** Error paths *)





(** ** The per-VAO cache of [Attribute.enabled] *)

Lemma includes_true (l : list WebGLVertexArrayObject)
    (v : WebGLVertexArrayObject) :
  includes l v = true <-> v ∈ l.
Proof. unfold includes. apply bool_decide_eq_true. Qed.

Lemma includes_false (l : list WebGLVertexArrayObject)
    (v : WebGLVertexArrayObject) :
  includes l v = false <-> v ∉ l.
Proof. unfold includes. apply bool_decide_eq_false. Qed.

(** [indexOf] finds an index inside the array exactly for the members. *)
Lemma indexOf_bounds (l : list WebGLVertexArrayObject)
    (v : WebGLVertexArrayObject) :
  v ∈ l -> 0 <= indexOf l v < Z.of_nat (length l).
Proof.
  induction l as [| x rest IH]; intros Hin.
  - inversion Hin.
  - simpl indexOf. destruct (Pos.eqb_spec x v) as [-> | Hne].
    + simpl length. lia.
    + assert (Hrest : v ∈ rest).
      { apply elem_of_cons in Hin. destruct Hin as [-> | H]; [| exact H].
        destruct Hne. reflexivity. }
      specialize (IH Hrest).
      destruct (Z.ltb_spec (indexOf rest v) 0); simpl length; lia.
Qed.

Lemma indexOf_absent (l : list WebGLVertexArrayObject)
    (v : WebGLVertexArrayObject) :
  v ∉ l -> indexOf l v = -1.
Proof.
  induction l as [| x rest IH]; intros Hnin; simpl.
  - reflexivity.
  - apply not_elem_of_cons in Hnin. destruct Hnin as [Hne Hrest].
    destruct (Pos.eqb_spec x v) as [-> | _]; [destruct Hne; reflexivity |].
    rewrite (IH Hrest). reflexivity.
Qed.

Lemma splice1_head (x : WebGLVertexArrayObject)
    (rest : list WebGLVertexArrayObject) :
  splice1 (x :: rest) 0 = rest.
Proof.
  unfold splice1. simpl length.
  replace (Z.min 0 (Z.of_nat (S (length rest)))) with 0 by lia. reflexivity.
Qed.

Lemma splice1_tail (x : WebGLVertexArrayObject)
    (rest : list WebGLVertexArrayObject) (i : Z) :
  0 <= i < Z.of_nat (length rest) ->
  splice1 (x :: rest) (i + 1) = x :: splice1 rest i.
Proof.
  intros Hi. unfold splice1. simpl length.
  destruct (Z.ltb_spec (i + 1) 0); [lia |].
  destruct (Z.ltb_spec i 0); [lia |].
  replace (Z.min (i + 1) (Z.of_nat (S (length rest)))) with (i + 1) by lia.
  replace (Z.min i (Z.of_nat (length rest))) with i by lia.
  replace (Z.to_nat (i + 1)) with (S (Z.to_nat i)) by lia. reflexivity.
Qed.

(** On an array without repetition, [splice(indexOf(v), 1)] removes [v]. *)
Lemma splice1_indexOf_removes (l : list WebGLVertexArrayObject)
    (v : WebGLVertexArrayObject) :
  NoDup l -> v ∈ l ->
  (v ∉ splice1 l (indexOf l v)) /\ NoDup (splice1 l (indexOf l v)).
Proof.
  induction l as [| x rest IH]; intros Hnd Hin.
  - inversion Hin.
  - apply NoDup_cons in Hnd. destruct Hnd as [Hx Hnd].
    simpl indexOf. destruct (Pos.eqb_spec x v) as [-> | Hne].
    + rewrite splice1_head. split; assumption.
    + assert (Hrest : v ∈ rest).
      { apply elem_of_cons in Hin. destruct Hin as [-> | H]; [| exact H].
        destruct Hne. reflexivity. }
      pose proof (indexOf_bounds rest v Hrest) as Hb.
      destruct (Z.ltb_spec (indexOf rest v) 0); [lia |].
      rewrite splice1_tail by exact Hb.
      destruct (IH Hnd Hrest) as [Hnin Hnd'].
      split.
      * apply not_elem_of_cons. split; [congruence | exact Hnin].
      * apply NoDup_cons. split; [| exact Hnd'].
        intros Hxin. apply Hx. unfold splice1 in Hxin.
        eapply list_elem_of_delete_inv. exact Hxin.
Qed.

Lemma push_includes (l : list WebGLVertexArrayObject)
    (v : WebGLVertexArrayObject) :
  v ∉ l -> NoDup l -> (v ∈ l ++ [v]) /\ NoDup (l ++ [v]).
Proof.
  intros Hnin Hnd. split.
  - apply elem_of_app. right. apply list_elem_of_singleton. reflexivity.
  - apply NoDup_app. split; [exact Hnd |]. split; [| apply NoDup_singleton].
    intros x Hx Hx'. apply list_elem_of_singleton in Hx'. subst x.
    exact (Hnin Hx).
Qed.

(** ** Runs of the [Attribute] accessors *)

Lemma run_get_enabled (E : Env) (s : St E) (a : Attribute.t) :
  run E (Attribute.get_enabled a) s =
    mkRun
      (Returned
         match answer E (Vao_getBound (Attribute.gl a)) s with
         | Some v => includes (Attribute.enabledVaosCache a) v
         | None => false
         end)
      [Vao_getBound (Attribute.gl a)]
      (after E (Vao_getBound (Attribute.gl a)) s).
Proof.
  unfold Attribute.get_enabled. simpl.
  destruct (answer E (Vao_getBound (Attribute.gl a)) s); reflexivity.
Qed.

Lemma run_set_enabled_unchanged (E : Env) (s : St E) (a : Attribute.t)
    (value : bool) :
  outcome (run E (Attribute.get_enabled a) s) = Returned value ->
  run E (Attribute.set_enabled value a) s =
    mkRun (Returned a) [Vao_getBound (Attribute.gl a)]
      (after E (Vao_getBound (Attribute.gl a)) s).
Proof.
  intros Hget. unfold Attribute.set_enabled.
  rewrite run_mbind. rewrite Hget. rewrite run_get_enabled. cbn [trace final].
  cbv zeta. rewrite eqb_reflx. reflexivity.
Qed.

Lemma run_set_enabled_changed (E : Env) (s : St E) (a : Attribute.t)
    (value : bool) :
  outcome (run E (Attribute.get_enabled a) s) = Returned (negb value) ->
  let q := Vao_getBound (Attribute.gl a) in
  let c :=
    if value
    then GL_enableVertexAttribArray (Attribute.gl a) (Attribute.location a)
    else GL_disableVertexAttribArray (Attribute.gl a) (Attribute.location a) in
  run E (Attribute.set_enabled value a) s =
    mkRun (Returned (enabled_updated value (answer E q (after E q s)) a))
      [q; q; c] (after E c (after E q (after E q s))).
Proof.
  intros Hget q c. subst q c. unfold Attribute.set_enabled.
  rewrite run_mbind. rewrite Hget. rewrite run_get_enabled. cbn [trace final].
  cbv zeta.
  replace (eqb (negb value) value) with false by (destruct value; reflexivity).
  unfold enabled_updated.
  destruct value; simpl;
    destruct (answer E (Vao_getBound (Attribute.gl a))
                (after E (Vao_getBound (Attribute.gl a)) s)) as [v |];
    simpl; try reflexivity;
    destruct (includes (Attribute.enabledVaosCache a) v); reflexivity.
Qed.

(** [set enabled] always returns; it leaves every field but the per-VAO
    cache alone and never calls [setterInternal]. *)
Lemma set_enabled_returns (E : Env) (s : St E) (a : Attribute.t)
    (value : bool) :
  exists a' : Attribute.t,
    outcome (run E (Attribute.set_enabled value a) s) = Returned a'
    /\ Attribute.gl a' = Attribute.gl a
    /\ Attribute.location a' = Attribute.location a
    /\ Attribute.valueCache a' = Attribute.valueCache a
    /\ count is_setterInternal
         (trace (run E (Attribute.set_enabled value a) s)) = 0%nat
    /\ (count is_enable_or_disable
          (trace (run E (Attribute.set_enabled value a) s)) <= 1)%nat.
Proof.
  pose proof (run_get_enabled E s a) as Hget.
  apply (f_equal outcome) in Hget. cbn [outcome] in Hget.
  destruct (decide
              (match answer E (Vao_getBound (Attribute.gl a)) s with
               | Some v => includes (Attribute.enabledVaosCache a) v
               | None => false
               end = value)) as [Heq | Hne].
  - rewrite Heq in Hget.
    rewrite (run_set_enabled_unchanged E s a value Hget).
    exists a. cbn [outcome trace]. repeat split; auto.
  - assert (Hneg : match answer E (Vao_getBound (Attribute.gl a)) s with
                   | Some v => includes (Attribute.enabledVaosCache a) v
                   | None => false
                   end = negb value).
    { destruct (match answer E (Vao_getBound (Attribute.gl a)) s with
                | Some v => includes (Attribute.enabledVaosCache a) v
                | None => false
                end), value; try reflexivity; destruct Hne; reflexivity. }
    rewrite Hneg in Hget.
    rewrite (run_set_enabled_changed E s a value Hget).
    eexists. cbn [outcome trace]. split; [reflexivity |].
    unfold enabled_updated.
    destruct (answer E (Vao_getBound (Attribute.gl a))
                (after E (Vao_getBound (Attribute.gl a)) s)) as [v |];
      destruct value; simpl;
      try destruct (includes (Attribute.enabledVaosCache a) v); simpl;
      repeat split; auto.
Qed.

(** [setValue] always binds the buffer and calls [setterInternal], once
    each and last, and stores the value it passed. *)
Lemma run_setValue (E : Env) (s : St E) (a : Attribute.t) (arg : SetValueArg) :
  let r := run E (Attribute.setValue arg a) s in
  trace r =
    trace (run E (Attribute.set_enabled true a) s)
    ++ [Buffer_bind (buffer (realValue arg)) ARRAY_BUFFER;
        Attribute_setterInternal (Attribute.gl a) (Attribute.location a)
          (realValue arg)]
  /\ count is_setterInternal (trace r) = 1%nat
  /\ exists a' : Attribute.t,
       outcome r = Returned a'
       /\ Attribute.valueCache a' = Some (realValue arg).
Proof.
  intros r. subst r.
  destruct (set_enabled_returns E s a true)
    as (a1 & Hout & Hgl & Hloc & _ & Hcount & _).
  unfold Attribute.setValue. rewrite run_mbind.
  remember (run E (Attribute.set_enabled true a) s) as r1 eqn:Hr1.
  rewrite Hout. cbv zeta. simpl. rewrite Hgl, Hloc.
  split; [reflexivity |]. split.
  - rewrite count_app, Hcount. reflexivity.
  - eexists. split; reflexivity.
Qed.

(** C8. With no vertex array object bound, the [enabled] getter returns
    [false]; assigning [true] then still issues [enableVertexAttribArray],
    leaves the wrapper (and with it the per-VAO cache) as it was, and a read
    that follows returns [false]. *)
Theorem enabled_without_vao_reads_false (E : Env) (s : St E)
    (a : Attribute.t) :
  NoVaoBound E (Attribute.gl a) ->
  let q := Vao_getBound (Attribute.gl a) in
  let enable :=
    GL_enableVertexAttribArray (Attribute.gl a) (Attribute.location a) in
  outcome (run E (Attribute.get_enabled a) s) = Returned false
  /\ run E (Attribute.set_enabled true a) s =
       mkRun (Returned a) [q; q; enable]
         (after E enable (after E q (after E q s)))
  /\ run E (a' ← Attribute.set_enabled true a; Attribute.get_enabled a') s =
       mkRun (Returned false) [q; q; enable; q]
         (after E q (after E enable (after E q (after E q s)))).
Proof.
  intros Hno q enable. subst q enable.
  assert (Hget : forall s', outcome (run E (Attribute.get_enabled a) s') =
                            Returned false).
  { intros s'. rewrite run_get_enabled. cbn [outcome]. rewrite Hno.
    reflexivity. }
  assert (Hset : run E (Attribute.set_enabled true a) s =
                 mkRun (Returned a)
                   [Vao_getBound (Attribute.gl a);
                    Vao_getBound (Attribute.gl a);
                    GL_enableVertexAttribArray (Attribute.gl a)
                      (Attribute.location a)]
                   (after E
                      (GL_enableVertexAttribArray (Attribute.gl a)
                         (Attribute.location a))
                      (after E (Vao_getBound (Attribute.gl a))
                         (after E (Vao_getBound (Attribute.gl a)) s)))).
  { rewrite (run_set_enabled_changed E s a true (Hget s)).
    cbv zeta. rewrite Hno. reflexivity. }
  split; [apply Hget |]. split; [exact Hset |].
  rewrite run_mbind, Hset. cbn [outcome trace final]. cbv zeta.
  rewrite run_get_enabled. cbn [outcome trace final]. rewrite Hno.
  reflexivity.
Qed.

Lemma enabled_without_vao_reads_false_witness :
  NoVaoBound NoVaoEnv 1%positive
  /\ outcome (run NoVaoEnv (Attribute.get_enabled attribute0) browser0) =
       Returned false
  /\ run NoVaoEnv
       (a' ← Attribute.set_enabled true attribute0; Attribute.get_enabled a')
       browser0 =
       mkRun (E := NoVaoEnv) (Returned false)
         [Vao_getBound 1%positive; Vao_getBound 1%positive;
          GL_enableVertexAttribArray 1%positive 0; Vao_getBound 1%positive]
         browser0.
Proof.
  assert (Hno : NoVaoBound NoVaoEnv (Attribute.gl attribute0)).
  { intros s. reflexivity. }
  pose proof (enabled_without_vao_reads_false NoVaoEnv browser0 attribute0 Hno)
    as H.
  cbv zeta in H. destruct H as (H1 & _ & H3).
  split; [exact Hno |]. split; [exact H1 |]. exact H3.
Defined.

(** ** Cached setters *)

Lemma PredefinedColorSpace_eqb_eq (a b : PredefinedColorSpace) :
  PredefinedColorSpace_eqb a b = true <-> a = b.
Proof. destruct a, b; simpl; split; congruence. Qed.

(** [set enabled] never binds a buffer. *)
Lemma set_enabled_never_binds (E : Env) (s : St E) (a : Attribute.t)
    (value : bool) :
  count is_Buffer_bind (trace (run E (Attribute.set_enabled value a) s)) =
    0%nat.
Proof.
  apply Avoids_count.
  unfold Attribute.set_enabled, Attribute.get_enabled. avoids.
Qed.

(** [==] on numbers is not reflexive: a cached colour with a [NaN]
    component never passes the guard of the [blendColor] setter, not even
    against itself, while the two zeros pass it against each other. *)
Example blendColor_unchanged_nan_and_zero :
  let c := mkColor nan 0%float 0%float 1%float in
  Context.blendColor_unchanged (Some c) c = false
  /\ Context.blendColor_unchanged
       (Some (mkColor 0%float 0%float 0%float 0%float))
       (mkColor (-0)%float 0%float 0%float 0%float) = true.
Proof. split; reflexivity. Qed.

(** C1, as the code has it.  For each cached setter of [Context], when the
    requested value is [==] to the cached one (component by component for
    [blendColor]) the setter returns at once: no call is issued, the
    environment's state and the wrapper are as before.  The [enabled] setter
    of [Attribute] likewise issues no enable or disable call when its getter
    reports the requested value; its only call is the [Vao.getBound] of that
    read.  [Attribute.setValue] is not guarded by its cache: whatever the
    value cache holds, after the calls of [enabled = true] it binds the
    value's buffer to [ARRAY_BUFFER] and calls [setterInternal], once each
    and in that order, and stores the value it passed. *)
Theorem unchanged_value_skips_native_call (E : Env) (s : St E)
    (this : Context.t) (a : Attribute.t) :
  (forall v, Context.drawingBufferColorSpaceCache this = Some v ->
     run E (Context.set_drawingBufferColorSpace v this) s =
       mkRun (Returned this) [] s)
  /\ (forall v, Context.unpackColorSpaceCache this = Some v ->
        run E (Context.set_unpackColorSpace v this) s =
          mkRun (Returned this) [] s)
  /\ (forall v, Context.activeTextureCache this = Some v ->
        run E (Context.set_activeTexture v this) s =
          mkRun (Returned this) [] s)
  /\ (forall v,
        Context.blendColor_unchanged (Context.blendColorCache this) v = true ->
        run E (Context.set_blendColor v this) s = mkRun (Returned this) [] s)
  /\ (forall v, outcome (run E (Attribute.get_enabled a) s) = Returned v ->
        run E (Attribute.set_enabled v a) s =
          mkRun (Returned a) [Vao_getBound (Attribute.gl a)]
            (after E (Vao_getBound (Attribute.gl a)) s))
  /\ (forall arg,
        let e := run E (Attribute.set_enabled true a) s in
        let r := run E (Attribute.setValue arg a) s in
        trace r =
          trace e
          ++ [Buffer_bind (buffer (realValue arg)) ARRAY_BUFFER;
              Attribute_setterInternal (Attribute.gl a) (Attribute.location a)
                (realValue arg)]
        /\ count is_Buffer_bind (trace r) = 1%nat
        /\ count is_setterInternal (trace r) = 1%nat
        /\ exists a1 : Attribute.t,
             outcome e = Returned a1
             /\ outcome r =
                  Returned
                    (Attribute.with_valueCache (Some (realValue arg)) a1)
             /\ Attribute.get_value
                  (Attribute.with_valueCache (Some (realValue arg)) a1) =
                  Some (realValue arg)).
Proof.
  split; [| split; [| split; [| split; [| split]]]].
  - intros v Hc. unfold Context.set_drawingBufferColorSpace. rewrite Hc.
    replace (PredefinedColorSpace_eqb v v) with true
      by (symmetry; apply PredefinedColorSpace_eqb_eq; reflexivity).
    reflexivity.
  - intros v Hc. unfold Context.set_unpackColorSpace. rewrite Hc.
    replace (PredefinedColorSpace_eqb v v) with true
      by (symmetry; apply PredefinedColorSpace_eqb_eq; reflexivity).
    reflexivity.
  - intros v Hc. unfold Context.set_activeTexture. rewrite Hc, Z.eqb_refl.
    reflexivity.
  - intros v Hc. unfold Context.set_blendColor. rewrite Hc. reflexivity.
  - intros v Hget. apply run_set_enabled_unchanged. exact Hget.
  - intros arg e r. subst e r.
    destruct (run_setValue E s a arg) as (Htr & Hcount & _).
    cbv zeta in Htr.
    split; [exact Htr |]. split; [| split; [exact Hcount |]].
    + rewrite Htr, count_app, (set_enabled_never_binds E s a true).
      reflexivity.
    + destruct (set_enabled_returns E s a true) as (a1 & Hout & _).
      exists a1. split; [exact Hout |]. split; [| reflexivity].
      unfold Attribute.setValue. rewrite run_mbind.
      remember (run E (Attribute.set_enabled true a) s) as r1 eqn:Hr1.
      rewrite Hout. reflexivity.
Qed.

Lemma unchanged_value_skips_native_call_witness :
  run BrowserEnv (Context.set_drawingBufferColorSpace srgb context_cached)
    browser_vao_bound =
    mkRun (E := BrowserEnv) (Returned context_cached) [] browser_vao_bound
  /\ run BrowserEnv (Context.set_unpackColorSpace display_p3 context_cached)
       browser_vao_bound =
       mkRun (E := BrowserEnv) (Returned context_cached) [] browser_vao_bound
  /\ run BrowserEnv (Context.set_activeTexture 3 context_cached)
       browser_vao_bound =
       mkRun (E := BrowserEnv) (Returned context_cached) [] browser_vao_bound
  /\ run BrowserEnv
       (Context.set_blendColor (mkColor 0%float 0.5%float 1%float 1%float)
          context_cached)
       browser_vao_bound =
       mkRun (E := BrowserEnv) (Returned context_cached) [] browser_vao_bound
  /\ run BrowserEnv (Attribute.set_enabled true attribute_cached)
       browser_vao_bound =
       mkRun (E := BrowserEnv) (Returned attribute_cached)
         [Vao_getBound 1%positive] browser_vao_bound
  /\ trace (run BrowserEnv (Attribute.setValue (AsBuffer 5%positive) attribute0)
              browser_vao_bound) =
       [Vao_getBound 1%positive; Vao_getBound 1%positive;
        GL_enableVertexAttribArray 1%positive 0;
        Buffer_bind 5%positive ARRAY_BUFFER;
        Attribute_setterInternal 1%positive 0
          (mkAttributeValue 5%positive None None None None)].
Proof.
  destruct (unchanged_value_skips_native_call BrowserEnv browser_vao_bound
              context_cached attribute_cached)
    as (H1 & H2 & H3 & H4 & H5 & _).
  destruct (unchanged_value_skips_native_call BrowserEnv browser_vao_bound
              context_cached attribute0)
    as (_ & _ & _ & _ & _ & H6).
  split; [apply H1; reflexivity |].
  split; [apply H2; reflexivity |].
  split; [apply H3; reflexivity |].
  split; [apply H4; reflexivity |].
  split; [apply H5; reflexivity |].
  destruct (H6 (AsBuffer 5%positive)) as (Htr & _).
  rewrite Htr. reflexivity.
Defined.

(** The claim C1 fails for [Attribute.setValue]: with [value0] in the value
    cache and the attribute already enabled for the bound vertex array
    object, assigning [value0] again binds the buffer and calls
    [setterInternal]. *)
Lemma setValue_reissues_on_cached_value :
  Attribute.get_value attribute_cached = Some value0
  /\ run BrowserEnv (Attribute.setValue (AsValue value0) attribute_cached)
       browser_vao_bound =
       mkRun (E := BrowserEnv) (Returned attribute_cached)
         [Vao_getBound 1%positive;
          Buffer_bind 5%positive ARRAY_BUFFER;
          Attribute_setterInternal 1%positive 0 value0]
         browser_vao_bound.
Proof. split; reflexivity. Qed.

Lemma enabled_updated_cached (value : bool) (v : WebGLVertexArrayObject)
    (a : Attribute.t) :
  NoDup (Attribute.enabledVaosCache a) ->
  includes (Attribute.enabledVaosCache (enabled_updated value (Some v) a)) v
    = value
  /\ NoDup (Attribute.enabledVaosCache (enabled_updated value (Some v) a)).
Proof.
  intros Hnd. unfold enabled_updated. cbv zeta.
  destruct value;
    destruct (includes (Attribute.enabledVaosCache a) v) eqn:Hinc; simpl.
  - split; [exact Hinc | exact Hnd].
  - apply includes_false in Hinc.
    destruct (push_includes _ v Hinc Hnd) as [Hin Hnd'].
    split; [apply includes_true; exact Hin | exact Hnd'].
  - apply includes_true in Hinc.
    destruct (splice1_indexOf_removes _ v Hnd Hinc) as [Hnin Hnd'].
    split; [apply includes_false; exact Hnin | exact Hnd'].
  - split; [exact Hinc | exact Hnd].
Qed.

(** C2, as the code has it.  For each cached setter of [Context], when the
    requested value is not [==] to the cached one, or nothing is cached, the
    setter issues its native call exactly once and the cache then holds the
    requested value.  The [enabled] setter of [Attribute], when its getter
    reports the other value, asks [Vao.getBound] again and issues exactly
    one enable or disable call; it records the new value in the per-VAO
    cache when a vertex array object is bound (the cache holding no object
    twice), and leaves the wrapper as it was when none is bound.
    [Attribute.setValue] calls [setterInternal] exactly once and its value
    cache then holds the value it passed. *)
Theorem changed_value_issues_one_call (E : Env) (s : St E)
    (this : Context.t) (a : Attribute.t) :
  let g := Context.gl this in
  (forall v, Context.drawingBufferColorSpaceCache this <> Some v ->
     run E (Context.set_drawingBufferColorSpace v this) s =
       mkRun
         (Returned (Context.with_drawingBufferColorSpaceCache (Some v) this))
         [GL_set_drawingBufferColorSpace g v]
         (after E (GL_set_drawingBufferColorSpace g v) s))
  /\ (forall v, Context.unpackColorSpaceCache this <> Some v ->
        run E (Context.set_unpackColorSpace v this) s =
          mkRun (Returned (Context.with_unpackColorSpaceCache (Some v) this))
            [GL_set_unpackColorSpace g v]
            (after E (GL_set_unpackColorSpace g v) s))
  /\ (forall v, Context.activeTextureCache this <> Some v ->
        run E (Context.set_activeTexture v this) s =
          mkRun (Returned (Context.with_activeTextureCache (Some v) this))
            [GL_activeTexture g (v + TEXTURE0)]
            (after E (GL_activeTexture g (v + TEXTURE0)) s))
  /\ (forall v,
        Context.blendColor_unchanged (Context.blendColorCache this) v = false ->
        run E (Context.set_blendColor v this) s =
          mkRun (Returned (Context.with_blendColorCache (Some v) this))
            [GL_blendColor g (c0 v) (c1 v) (c2 v) (c3 v)]
            (after E (GL_blendColor g (c0 v) (c1 v) (c2 v) (c3 v)) s))
  /\ (forall value,
        outcome (run E (Attribute.get_enabled a) s) = Returned (negb value) ->
        let q := Vao_getBound (Attribute.gl a) in
        let c :=
          if value
          then GL_enableVertexAttribArray (Attribute.gl a)
                 (Attribute.location a)
          else GL_disableVertexAttribArray (Attribute.gl a)
                 (Attribute.location a) in
        let r := run E (Attribute.set_enabled value a) s in
        trace r = [q; q; c]
        /\ count is_enable_or_disable (trace r) = 1%nat
        /\ exists a' : Attribute.t,
             outcome r = Returned a'
             /\ (answer E q (after E q s) = None -> a' = a)
             /\ (forall v, answer E q (after E q s) = Some v ->
                   NoDup (Attribute.enabledVaosCache a) ->
                   includes (Attribute.enabledVaosCache a') v = value
                   /\ NoDup (Attribute.enabledVaosCache a')))
  /\ (forall arg,
        let r := run E (Attribute.setValue arg a) s in
        count is_setterInternal (trace r) = 1%nat
        /\ exists a' : Attribute.t,
             outcome r = Returned a'
             /\ Attribute.valueCache a' = Some (realValue arg)).
Proof.
  intros g. subst g. split; [| split; [| split; [| split; [| split]]]].
  - intros v Hne. unfold Context.set_drawingBufferColorSpace.
    destruct (Context.drawingBufferColorSpaceCache this) as [c |];
      [| reflexivity].
    destruct (PredefinedColorSpace_eqb c v) eqn:Heq; [| reflexivity].
    apply PredefinedColorSpace_eqb_eq in Heq. subst c.
    destruct Hne. reflexivity.
  - intros v Hne. unfold Context.set_unpackColorSpace.
    destruct (Context.unpackColorSpaceCache this) as [c |]; [| reflexivity].
    destruct (PredefinedColorSpace_eqb c v) eqn:Heq; [| reflexivity].
    apply PredefinedColorSpace_eqb_eq in Heq. subst c.
    destruct Hne. reflexivity.
  - intros v Hne. unfold Context.set_activeTexture.
    destruct (Context.activeTextureCache this) as [c |]; [| reflexivity].
    destruct (Z.eqb_spec c v) as [-> | _]; [| reflexivity].
    destruct Hne. reflexivity.
  - intros v Hc. unfold Context.set_blendColor. rewrite Hc. reflexivity.
  - intros value Hget q c r. subst q c r.
    rewrite (run_set_enabled_changed E s a value Hget). cbv zeta.
    cbn [outcome trace]. split; [reflexivity |]. split.
    + destruct value; reflexivity.
    + eexists. split; [reflexivity |]. split.
      * intros Hnone. rewrite Hnone. reflexivity.
      * intros v Hv Hnd. rewrite Hv. apply enabled_updated_cached, Hnd.
  - intros arg r. subst r.
    destruct (run_setValue E s a arg) as (_ & Hcount & Hout).
    split; assumption.
Qed.

Lemma changed_value_issues_one_call_witness :
  run BrowserEnv (Context.set_drawingBufferColorSpace display_p3 context_cached)
    browser_vao_bound =
    mkRun (E := BrowserEnv)
      (Returned
         (Context.with_drawingBufferColorSpaceCache (Some display_p3)
            context_cached))
      [GL_set_drawingBufferColorSpace 1%positive display_p3]
      (Browser_with_drawingBufferColorSpace display_p3 browser_vao_bound)
  /\ trace (run BrowserEnv (Context.set_unpackColorSpace srgb context0)
              browser_vao_bound) =
       [GL_set_unpackColorSpace 1%positive srgb]
  /\ trace (run BrowserEnv (Context.set_activeTexture 5 context_cached)
              browser_vao_bound) =
       [GL_activeTexture 1%positive (5 + TEXTURE0)]
  /\ trace (run BrowserEnv
              (Context.set_blendColor
                 (mkColor 1%float 0.5%float 1%float 1%float) context_cached)
              browser_vao_bound) =
       [GL_blendColor 1%positive 1%float 0.5%float 1%float 1%float]
  /\ (exists a' : Attribute.t,
        outcome (run BrowserEnv (Attribute.set_enabled true attribute0)
                   browser_vao_bound) = Returned a'
        /\ includes (Attribute.enabledVaosCache a') 7%positive = true).
Proof.
  pose proof (changed_value_issues_one_call BrowserEnv browser_vao_bound
                context_cached attribute0) as H.
  pose proof (changed_value_issues_one_call BrowserEnv browser_vao_bound
                context0 attribute0) as H0.
  cbv zeta in H, H0.
  destruct H as (H1 & _ & H3 & H4 & H5 & _). destruct H0 as (_ & H2 & _).
  split; [apply H1; discriminate |].
  split; [rewrite H2; [reflexivity | discriminate] |].
  split; [rewrite H3; [reflexivity | discriminate] |].
  split; [rewrite H4; reflexivity |].
  destruct (H5 true eq_refl) as (_ & _ & a' & Hout & _ & Hv).
  exists a'. split; [exact Hout |].
  apply (Hv 7%positive); [reflexivity | apply NoDup_nil_2].
Defined.

(** The claim C2 fails for the [enabled] setter of [Attribute] when no
    vertex array object is bound: the getter reports [false], assigning
    [true] issues [enableVertexAttribArray], and the cache still reports
    [false] afterwards. *)
Lemma enabled_without_vao_not_cached :
  outcome (run BrowserEnv (Attribute.get_enabled attribute0) browser0) =
    Returned false
  /\ run BrowserEnv (Attribute.set_enabled true attribute0) browser0 =
       mkRun (E := BrowserEnv) (Returned attribute0)
         [Vao_getBound 1%positive; Vao_getBound 1%positive;
          GL_enableVertexAttribArray 1%positive 0]
         browser0
  /\ outcome (run BrowserEnv
                (a' ← Attribute.set_enabled true attribute0;
                 Attribute.get_enabled a') browser0) =
       Returned false.
Proof. repeat split. Qed.

(** * Further properties *)

(** ** [NaN] in colours *)

Lemma SFeqb_refl_or_nan (f : spec_float) :
  SFeqb f f = true \/ f = S754_nan.
Proof.
  destruct f as [sg | sg | | sg m e]; unfold SFeqb; simpl.
  - left. reflexivity.
  - left. destruct sg; reflexivity.
  - right. reflexivity.
  - left. rewrite Z.compare_refl, Pos.compare_cont_refl.
    destruct sg; reflexivity.
Qed.

(** Nothing is [==] to [NaN]. *)
Lemma number_eq_nan (x y : number) :
  is_nan y = true -> number_eq x y = false.
Proof.
  unfold is_nan, number_eq. rewrite !FloatAxioms.eqb_spec. intros Hnan.
  destruct (SFeqb_refl_or_nan (Prim2SF y)) as [Hrefl | Hy].
  - rewrite Hrefl in Hnan. discriminate Hnan.
  - rewrite Hy. unfold SFeqb. destruct (Prim2SF x); reflexivity.
Qed.

Lemma blendColor_unchanged_nan (cache : option Color) (value : Color) :
  has_nan value = true -> Context.blendColor_unchanged cache value = false.
Proof.
  unfold has_nan, Context.blendColor_unchanged. intros Hnan.
  destruct cache as [c |]; [| reflexivity].
  apply orb_true_iff in Hnan. destruct Hnan as [Hnan | H3].
  - apply orb_true_iff in Hnan. destruct Hnan as [Hnan | H2].
    + apply orb_true_iff in Hnan. destruct Hnan as [H0 | H1].
      * rewrite (number_eq_nan _ _ H0). reflexivity.
      * rewrite (number_eq_nan _ _ H1), andb_false_r. reflexivity.
    + rewrite (number_eq_nan _ _ H2), andb_false_r. reflexivity.
  - rewrite (number_eq_nan _ _ H3), andb_false_r. reflexivity.
Qed.

(** X4. A colour with a [NaN] component is never taken for the cached one:
    whatever the cache holds, even that very colour, the [blendColor] setter
    issues its native call and stores the colour. *)
Theorem set_blendColor_nan_always_issues (E : Env) (s : St E)
    (this : Context.t) (value : Color) :
  has_nan value = true ->
  let c :=
    GL_blendColor (Context.gl this) (c0 value) (c1 value) (c2 value)
      (c3 value) in
  run E (Context.set_blendColor value this) s =
    mkRun (Returned (Context.with_blendColorCache (Some value) this)) [c]
      (after E c s)
  /\ trace (run E (this' ← Context.set_blendColor value this;
                   Context.set_blendColor value this') s) = [c; c].
Proof.
  intros Hnan c. subst c.
  assert (Hrun : forall (t : Context.t) (s' : St E),
            run E (Context.set_blendColor value t) s' =
              mkRun (Returned (Context.with_blendColorCache (Some value) t))
                [GL_blendColor (Context.gl t) (c0 value) (c1 value)
                   (c2 value) (c3 value)]
                (after E
                   (GL_blendColor (Context.gl t) (c0 value) (c1 value)
                      (c2 value) (c3 value)) s')).
  { intros t s'. unfold Context.set_blendColor.
    rewrite (blendColor_unchanged_nan _ _ Hnan). reflexivity. }
  split.
  - apply Hrun.
  - rewrite run_mbind, Hrun. cbn [outcome trace final]. cbv zeta.
    rewrite Hrun. reflexivity.
Qed.

Lemma set_blendColor_nan_always_issues_witness :
  trace (run BrowserEnv
           (this' ← Context.set_blendColor
                      (mkColor nan 0%float 0%float 1%float) context_cached;
            Context.set_blendColor (mkColor nan 0%float 0%float 1%float) this')
           browser0) =
    [GL_blendColor 1%positive nan 0%float 0%float 1%float;
     GL_blendColor 1%positive nan 0%float 0%float 1%float].
Proof.
  apply (set_blendColor_nan_always_issues BrowserEnv browser0 context_cached
           (mkColor nan 0%float 0%float 1%float) eq_refl).
Defined.

(** ** Cache coherence *)

Ltac coherent_after Hd Hu Ha Hb :=
  unfold Coherent;
  cbn [Context.gl Context.drawingBufferColorSpaceCache
       Context.unpackColorSpaceCache Context.activeTextureCache
       Context.blendColorCache Context.with_drawingBufferColorSpaceCache
       Context.with_unpackColorSpaceCache Context.with_activeTextureCache
       Context.with_blendColorCache];
  rewrite ?Hd, ?Hu, ?Ha, ?Hb by (simpl; apply Pos.eqb_refl);
  repeat split; intros w Hw; try (injection Hw as <-); auto.

Lemma access_coherent (E : Env) (s : St E) (op : PropertyAccess)
    (this : Context.t) :
  StoreLike E (Context.gl this) -> Coherent E s this ->
  exists this' : Context.t,
    outcome (run E (access op this) s) = Returned this'
    /\ Context.gl this' = Context.gl this
    /\ Coherent E (final (run E (access op this) s)) this'.
Proof.
  destruct this as [g cv d u a b]. intros [Hd Hu Ha Hb] Hcoh.
  pose proof Hcoh as (Cd & Cu & Ca & Cb).
  cbn [Context.gl Context.drawingBufferColorSpaceCache
       Context.unpackColorSpaceCache Context.activeTextureCache
       Context.blendColorCache] in *.
  destruct op; unfold access, Context.get_drawingBufferColorSpace,
    Context.set_drawingBufferColorSpace, Context.get_unpackColorSpace,
    Context.set_unpackColorSpace, Context.get_activeTexture,
    Context.set_activeTexture, Context.get_blendColor, Context.set_blendColor;
  cbn [Context.gl Context.drawingBufferColorSpaceCache
       Context.unpackColorSpaceCache Context.activeTextureCache
       Context.blendColorCache].
  - destruct d as [v |]; simpl; eexists; (split; [reflexivity |]);
      (split; [reflexivity |]); [exact Hcoh |].
    coherent_after Hd Hu Ha Hb.
  - destruct (match d with
              | Some c => PredefinedColorSpace_eqb c value
              | None => false
              end); simpl; eexists; (split; [reflexivity |]);
      (split; [reflexivity |]); [exact Hcoh |].
    coherent_after Hd Hu Ha Hb.
  - destruct u as [v |]; simpl; eexists; (split; [reflexivity |]);
      (split; [reflexivity |]); [exact Hcoh |].
    coherent_after Hd Hu Ha Hb.
  - destruct (match u with
              | Some c => PredefinedColorSpace_eqb c value
              | None => false
              end); simpl; eexists; (split; [reflexivity |]);
      (split; [reflexivity |]); [exact Hcoh |].
    coherent_after Hd Hu Ha Hb.
  - destruct a as [v |]; simpl; eexists; (split; [reflexivity |]);
      (split; [reflexivity |]); [exact Hcoh |].
    coherent_after Hd Hu Ha Hb.
  - destruct (match a with
              | Some c => c =? value
              | None => false
              end); simpl; eexists; (split; [reflexivity |]);
      (split; [reflexivity |]); [exact Hcoh |].
    coherent_after Hd Hu Ha Hb. lia.
  - destruct b as [v |]; simpl; eexists; (split; [reflexivity |]);
      (split; [reflexivity |]); [exact Hcoh |].
    coherent_after Hd Hu Ha Hb.
  - destruct (Context.blendColor_unchanged b value); simpl; eexists;
      (split; [reflexivity |]); (split; [reflexivity |]); [exact Hcoh |].
    coherent_after Hd Hu Ha Hb. destruct value; reflexivity.
Qed.

(** On a coherent wrapper every cached getter returns what the environment
    would report, whether it reads the cache or queries. *)
Lemma coherent_reads_native (E : Env) (s : St E) (this : Context.t) :
  Coherent E s this ->
  (exists t, outcome (run E (Context.get_drawingBufferColorSpace this) s) =
               Returned
                 (native_drawingBufferColorSpace E (Context.gl this) s, t))
  /\ (exists t, outcome (run E (Context.get_unpackColorSpace this) s) =
                  Returned (native_unpackColorSpace E (Context.gl this) s, t))
  /\ (exists t, outcome (run E (Context.get_activeTexture this) s) =
                  Returned
                    (native_activeTexture E (Context.gl this) s - TEXTURE0, t))
  /\ (exists t, outcome (run E (Context.get_blendColor this) s) =
                  Returned (native_blendColor E (Context.gl this) s, t)).
Proof.
  intros (Cd & Cu & Ca & Cb).
  unfold Context.get_drawingBufferColorSpace, Context.get_unpackColorSpace,
    Context.get_activeTexture, Context.get_blendColor.
  split; [| split; [| split]].
  - destruct (Context.drawingBufferColorSpaceCache this) as [v |] eqn:Hc.
    + rewrite <- (Cd v eq_refl). eexists. reflexivity.
    + eexists. reflexivity.
  - destruct (Context.unpackColorSpaceCache this) as [v |] eqn:Hc.
    + rewrite <- (Cu v eq_refl). eexists. reflexivity.
    + eexists. reflexivity.
  - destruct (Context.activeTextureCache this) as [v |] eqn:Hc.
    + rewrite <- (Ca v eq_refl). eexists. reflexivity.
    + eexists. reflexivity.
  - destruct (Context.blendColorCache this) as [v |] eqn:Hc.
    + rewrite <- (Cb v eq_refl). eexists. reflexivity.
    + eexists. reflexivity.
Qed.

(** X6. Against an environment that keeps the four properties like a store,
    a wrapper whose filled caches agree with the native state keeps that
    agreement through any sequence of reads and writes of its cached
    properties: the sequence never throws, and afterwards every filled cache
    holds what the environment would report, so that each getter returns the
    native value whether or not it queries.  Texture units are integers
    here and colours are values: for [blendColor] this is the behaviour of
    the code as long as no colour array is changed after it was handed to
    the setter or obtained from the getter, since the wrapper keeps and
    returns the caller's array itself. *)
Theorem caches_stay_coherent (E : Env) (ops : list PropertyAccess)
    (s : St E) (this : Context.t) :
  StoreLike E (Context.gl this) -> Coherent E s this ->
  let r := run E (accesses ops this) s in
  exists this' : Context.t,
    outcome r = Returned this'
    /\ Context.gl this' = Context.gl this
    /\ Coherent E (final r) this'
    /\ (exists t, outcome (run E (Context.get_drawingBufferColorSpace this')
                             (final r)) =
                    Returned
                      (native_drawingBufferColorSpace E (Context.gl this)
                         (final r), t))
    /\ (exists t, outcome (run E (Context.get_unpackColorSpace this')
                             (final r)) =
                    Returned
                      (native_unpackColorSpace E (Context.gl this) (final r),
                       t))
    /\ (exists t, outcome (run E (Context.get_activeTexture this') (final r)) =
                    Returned
                      (native_activeTexture E (Context.gl this) (final r)
                       - TEXTURE0, t))
    /\ (exists t, outcome (run E (Context.get_blendColor this') (final r)) =
                    Returned
                      (native_blendColor E (Context.gl this) (final r), t)).
Proof.
  intros Hstore Hcoh r. subst r.
  assert (Hinv : exists this' : Context.t,
            outcome (run E (accesses ops this) s) = Returned this'
            /\ Context.gl this' = Context.gl this
            /\ Coherent E (final (run E (accesses ops this) s)) this').
  { revert s this Hstore Hcoh.
    induction ops as [| op rest IH]; intros s this Hstore Hcoh; simpl.
    - exists this. repeat split; apply Hcoh.
    - rewrite run_mbind.
      destruct (access_coherent E s op this Hstore Hcoh)
        as (this1 & Hout & Hgl & Hcoh1).
      rewrite Hout. cbn [outcome trace final]. cbv zeta.
      rewrite <- Hgl in Hstore.
      destruct (IH _ this1 Hstore Hcoh1) as (this' & Hout' & Hgl' & Hcoh').
      exists this'. split; [exact Hout' |].
      split; [congruence | exact Hcoh']. }
  destruct Hinv as (this' & Hout & Hgl & Hcoh').
  exists this'. split; [exact Hout |]. split; [exact Hgl |].
  split; [exact Hcoh' |].
  rewrite <- Hgl. apply coherent_reads_native, Hcoh'.
Qed.

Lemma BrowserEnv_StoreLike (g : RawContext) : StoreLike BrowserEnv g.
Proof.
  split; intros c s Hc; destruct c; try discriminate Hc; try reflexivity;
    destruct pname; reflexivity.
Qed.

Lemma caches_stay_coherent_witness :
  exists this' : Context.t,
    outcome (run BrowserEnv
               (accesses
                  [Write_activeTexture 4; Read_blendColor;
                   Write_drawingBufferColorSpace display_p3;
                   Read_activeTexture; Write_activeTexture 2]
                  context0)
               browser0) = Returned this'
    /\ Context.activeTextureCache this' = Some 2
    /\ Coherent BrowserEnv
         (final (run BrowserEnv
                   (accesses
                      [Write_activeTexture 4; Read_blendColor;
                       Write_drawingBufferColorSpace display_p3;
                       Read_activeTexture; Write_activeTexture 2]
                      context0)
                   browser0))
         this'.
Proof.
  assert (Hcoh : Coherent BrowserEnv browser0 context0).
  { repeat split; intros v Hv; discriminate Hv. }
  destruct (caches_stay_coherent BrowserEnv
              [Write_activeTexture 4; Read_blendColor;
               Write_drawingBufferColorSpace display_p3;
               Read_activeTexture; Write_activeTexture 2]
              browser0 context0 (BrowserEnv_StoreLike 1%positive) Hcoh)
    as (this' & Hout & _ & Hcoh' & _).
  exists this'. split; [exact Hout |]. split; [| exact Hcoh'].
  vm_compute in Hout. injection Hout as <-. reflexivity.
Defined.

(** ** More on [Context] *)

(** X1. Wrapping an existing native context never throws and never asks a
    canvas for a context: the constructor only reads the context's canvas,
    ignores the options, and starts with every cache empty.  Whichever way a
    [Context] is constructed, its caches start empty. *)
Theorem Context_constructor_starts_uncached (E : Env) (s : St E)
    (source : ContextSource) (options : option WebGLContextAttributes) :
  let r := run E (Context.constructor source options) s in
  (forall g, source = FromRawContext g ->
     r = mkRun
           (Returned (Context.mk g (answer E (GL_canvas g) s)
                        None None None None))
           [GL_canvas g] (after E (GL_canvas g) s))
  /\ (forall this, outcome r = Returned this ->
        Context.drawingBufferColorSpaceCache this = None
        /\ Context.unpackColorSpaceCache this = None
        /\ Context.activeTextureCache this = None
        /\ Context.blendColorCache this = None
        /\ count is_getContext (trace r) =
             match source with FromRawContext _ => 0%nat | FromCanvas _ => 1%nat
             end).
Proof.
  intros r. subst r. split.
  - intros g ->. reflexivity.
  - intros this. destruct source as [g | cv];
      unfold Context.constructor, Context.wrap; simpl.
    + intros Hout. injection Hout as <-. repeat split.
    + destruct (answer E (Canvas_getContext cv "webgl2" options) s) as [g |];
        simpl; intros Hout; [| discriminate Hout].
      injection Hout as <-. repeat split.
Qed.

Lemma Context_constructor_starts_uncached_witness :
  run BrowserEnv (Context.constructor (FromRawContext 1%positive) None)
    browser_without_webgl2 =
    mkRun (E := BrowserEnv) (Returned context0) [GL_canvas 1%positive]
      browser_without_webgl2.
Proof.
  destruct (Context_constructor_starts_uncached BrowserEnv
              browser_without_webgl2 (FromRawContext 1%positive) None)
    as [H _].
  apply (H 1%positive eq_refl).
Defined.

(** X2. A read that follows a write of the same cached property never
    queries the native state: the two together issue exactly the calls of
    the write.  For the two colour spaces the read returns the value
    written.  For [blendColor] it returns the colour written or, when the
    write was skipped, the cached colour, whose components are [==] to those
    written (so a written [-0] can read back as [0]). *)
Theorem read_after_write_uses_the_cache (E : Env) (s : St E)
    (this : Context.t) :
  (forall v,
     let w := run E (Context.set_drawingBufferColorSpace v this) s in
     let r := run E (this' ← Context.set_drawingBufferColorSpace v this;
                     Context.get_drawingBufferColorSpace this') s in
     trace r = trace w /\ final r = final w
     /\ exists this', outcome r = Returned (v, this'))
  /\ (forall v,
        let w := run E (Context.set_unpackColorSpace v this) s in
        let r := run E (this' ← Context.set_unpackColorSpace v this;
                        Context.get_unpackColorSpace this') s in
        trace r = trace w /\ final r = final w
        /\ exists this', outcome r = Returned (v, this'))
  /\ (forall v,
        let w := run E (Context.set_blendColor v this) s in
        let r := run E (this' ← Context.set_blendColor v this;
                        Context.get_blendColor this') s in
        trace r = trace w /\ final r = final w
        /\ exists c this',
             outcome r = Returned (c, this')
             /\ (c = v \/ Context.blendColor_unchanged (Some c) v = true)).
Proof.
  destruct this as [g cv d u a b]. split; [| split].
  - intros v w r. subst w r. unfold Context.set_drawingBufferColorSpace,
      Context.get_drawingBufferColorSpace. simpl.
    destruct d as [c |]; simpl.
    + destruct (PredefinedColorSpace_eqb c v) eqn:Heq; simpl.
      * apply PredefinedColorSpace_eqb_eq in Heq. subst c.
        repeat split. eexists. reflexivity.
      * repeat split. eexists. reflexivity.
    + repeat split. eexists. reflexivity.
  - intros v w r. subst w r. unfold Context.set_unpackColorSpace,
      Context.get_unpackColorSpace. simpl.
    destruct u as [c |]; simpl.
    + destruct (PredefinedColorSpace_eqb c v) eqn:Heq; simpl.
      * apply PredefinedColorSpace_eqb_eq in Heq. subst c.
        repeat split. eexists. reflexivity.
      * repeat split. eexists. reflexivity.
    + repeat split. eexists. reflexivity.
  - intros v w r. subst w r. unfold Context.set_blendColor,
      Context.get_blendColor. simpl.
    destruct (Context.blendColor_unchanged b v) eqn:Heq; simpl.
    + destruct b as [c |]; [| discriminate Heq]. simpl.
      repeat split. exists c. eexists. split; [reflexivity |].
      right. exact Heq.
    + repeat split. exists v. eexists. split; [reflexivity |].
      left. reflexivity.
Qed.

(** A written negative zero read back as the cached positive zero. *)
Example blendColor_negative_zero_reads_back_as_zero :
  outcome (run BrowserEnv
             (this' ← Context.set_blendColor
                        (mkColor (-0)%float 0.5%float 1%float 1%float)
                        context_cached;
              Context.get_blendColor this')
             browser0) =
    Returned (mkColor 0%float 0.5%float 1%float 1%float, context_cached).
Proof. reflexivity. Qed.

(** X3. Writing the same value twice in a row issues the native call at
    most once: the second write is skipped, so the two writes run exactly as
    the first alone.  The value has to be [==] to itself: for [blendColor]
    the colour must have no [NaN] component, and for [activeTexture] the
    statement is about integer unit indices, the values this model has (a
    [NaN] unit fails the guard [cache == value] and is written each
    time). *)
Theorem second_write_of_same_value_is_skipped (E : Env) (s : St E)
    (this : Context.t) :
  (forall v,
     run E (this' ← Context.set_drawingBufferColorSpace v this;
            Context.set_drawingBufferColorSpace v this') s =
       run E (Context.set_drawingBufferColorSpace v this) s)
  /\ (forall v,
        run E (this' ← Context.set_unpackColorSpace v this;
               Context.set_unpackColorSpace v this') s =
          run E (Context.set_unpackColorSpace v this) s)
  /\ (forall v,
        run E (this' ← Context.set_activeTexture v this;
               Context.set_activeTexture v this') s =
          run E (Context.set_activeTexture v this) s)
  /\ (forall v,
        Context.blendColor_unchanged (Some v) v = true ->
        run E (this' ← Context.set_blendColor v this;
               Context.set_blendColor v this') s =
          run E (Context.set_blendColor v this) s).
Proof.
  destruct this as [g cv d u a b]. split; [| split; [| split]].
  - intros v. unfold Context.set_drawingBufferColorSpace. simpl.
    assert (Hv : PredefinedColorSpace_eqb v v = true)
      by (apply PredefinedColorSpace_eqb_eq; reflexivity).
    destruct (match d with
              | Some c => PredefinedColorSpace_eqb c v
              | None => false
              end) eqn:Heq; simpl; rewrite ?Heq, ?Hv; reflexivity.
  - intros v. unfold Context.set_unpackColorSpace. simpl.
    assert (Hv : PredefinedColorSpace_eqb v v = true)
      by (apply PredefinedColorSpace_eqb_eq; reflexivity).
    destruct (match u with
              | Some c => PredefinedColorSpace_eqb c v
              | None => false
              end) eqn:Heq; simpl; rewrite ?Heq, ?Hv; reflexivity.
  - intros v. unfold Context.set_activeTexture. simpl.
    destruct (match a with
              | Some c => c =? v
              | None => false
              end) eqn:Heq; simpl; rewrite ?Heq, ?Z.eqb_refl; reflexivity.
  - intros v Hv. remember (Context.mk g cv d u a b) as this eqn:Hthis.
    assert (H2 : Context.set_blendColor v
                   (Context.with_blendColorCache (Some v) this) =
                 mret (Context.with_blendColorCache (Some v) this)).
    { unfold Context.set_blendColor.
      cbn [Context.blendColorCache Context.with_blendColorCache].
      rewrite Hv. reflexivity. }
    destruct (Context.blendColor_unchanged (Context.blendColorCache this) v)
      eqn:Heq.
    + assert (H1 : Context.set_blendColor v this = mret this).
      { unfold Context.set_blendColor. rewrite Heq. reflexivity. }
      rewrite run_mbind, H1. simpl. rewrite H1. reflexivity.
    + assert (H1 : Context.set_blendColor v this =
                     (_ ← call (GL_blendColor (Context.gl this) (c0 v) (c1 v)
                                  (c2 v) (c3 v));
                      mret (Context.with_blendColorCache (Some v) this))).
      { unfold Context.set_blendColor. rewrite Heq. reflexivity. }
      rewrite run_mbind, H1. simpl. rewrite H2. reflexivity.
Qed.

Lemma second_write_of_same_value_is_skipped_witness :
  trace (run BrowserEnv
           (this' ← Context.set_blendColor
                      (mkColor 1%float 0%float 0%float 1%float) context0;
            Context.set_blendColor (mkColor 1%float 0%float 0%float 1%float)
              this')
           browser0) =
    [GL_blendColor 1%positive 1%float 0%float 0%float 1%float].
Proof.
  destruct (second_write_of_same_value_is_skipped BrowserEnv browser0 context0)
    as (_ & _ & _ & H).
  rewrite (H (mkColor 1%float 0%float 0%float 1%float) eq_refl).
  reflexivity.
Defined.

(** Consecutive reads through a getter that always queries. *)
Lemma reads_uncached {V W : Type} (E : Env) (get : W -> Prog (V * W))
    (q : NativeCall) (f : Resp q -> V) (this : W) :
  get this = Call q (fun r => Ret (f r, this)) ->
  forall (n : nat) (s : St E),
    trace (run E (reads get n this) s) = replicate n q.
Proof.
  intros Hget. induction n as [| n IH]; intros s; [reflexivity |].
  cbn [reads]. rewrite run_mbind, Hget.
  cbn [run outcome trace final]. cbv zeta. cbn [fst snd].
  rewrite run_mbind.
  destruct (outcome (run E (reads get n this) (after E q s)));
    cbn [run outcome trace final]; cbv zeta; cbn [trace];
    rewrite ?app_nil_r, IH; reflexivity.
Qed.

(** X5. The drawing buffer's height and width are not cached: every read
    queries the native context, so [n] reads issue [n] queries. *)
Theorem drawingBuffer_size_is_never_cached (E : Env) (n : nat) (s : St E)
    (this : Context.t) :
  trace (run E (reads (fun t => v ← Context.get_drawingBufferHeight t;
                                mret (v, t)) n this) s) =
    replicate n (GL_get_drawingBufferHeight (Context.gl this))
  /\ trace (run E (reads (fun t => v ← Context.get_drawingBufferWidth t;
                                   mret (v, t)) n this) s) =
       replicate n (GL_get_drawingBufferWidth (Context.gl this)).
Proof.
  split.
  - apply (reads_uncached E _ (GL_get_drawingBufferHeight (Context.gl this))
             (fun r => r)).
    reflexivity.
  - apply (reads_uncached E _ (GL_get_drawingBufferWidth (Context.gl this))
             (fun r => r)).
    reflexivity.
Qed.

(** ** More on [Program] *)

Lemma count_bind_calls_length (g : RawContext) (p : WebGLProgram)
    (locations : list (string * Z)) :
  count is_bindAttribLocation (bind_calls g p locations) = length locations.
Proof.
  unfold bind_calls. induction locations as [| [n i] rest IH]; simpl.
  - reflexivity.
  - rewrite count_cons. simpl. rewrite IH. reflexivity.
Qed.

(** X7. In the [Program] constructor every entry of the attribute-location
    map is bound, in the map's order, after both shaders are attached and
    before the program is linked; no [bindAttribLocation] follows
    [linkProgram], and none is issued at all when the map is omitted or
    empty. *)
Theorem attribute_locations_bound_before_link (E : Env) (s : St E)
    (context : Context.t) (vs fs : Shader.t)
    (locations : option (list (string * Z))) (p : WebGLProgram) :
  answer E (GL_createProgram (Context.gl context)) s = Some p ->
  let g := Context.gl context in
  let r := run E (Program.constructor context vs fs locations) s in
  exists post : list NativeCall,
    trace r =
      [GL_createProgram g;
       GL_attachShader g p (Shader.internal vs);
       GL_attachShader g p (Shader.internal fs)]
      ++ bind_calls g p (default [] locations)
      ++ GL_linkProgram g p :: post
    /\ count is_bindAttribLocation post = 0%nat
    /\ count is_linkProgram post = 0%nat
    /\ count is_bindAttribLocation (trace r) = length (default [] locations).
Proof.
  intros Hp g r. subst r.
  rewrite (run_Program_constructor_created E s context vs fs locations p Hp).
  cbv zeta. fold g. unfold link_prefix.
  destruct (answer E (GL_getProgramParameter g p LINK_STATUS) _);
    cbn [trace]; eexists;
    (split; [rewrite <- !app_assoc; reflexivity |]);
    (split; [reflexivity |]); (split; [reflexivity |]);
    rewrite !count_app, count_bind_calls_length, !count_cons, !count_nil;
    simpl; lia.
Qed.

Lemma attribute_locations_bound_before_link_witness :
  exists post : list NativeCall,
    trace (run BrowserEnv
             (Program.constructor context0 shader_v shader_f
                (Some [("a_position", 0); ("a_color", 1)]))
             browser0) =
      [GL_createProgram 1%positive;
       GL_attachShader 1%positive 10%positive 20%positive;
       GL_attachShader 1%positive 10%positive 21%positive;
       GL_bindAttribLocation 1%positive 10%positive 0 "a_position";
       GL_bindAttribLocation 1%positive 10%positive 1 "a_color";
       GL_linkProgram 1%positive 10%positive] ++ post
    /\ count is_bindAttribLocation post = 0%nat.
Proof.
  destruct (attribute_locations_bound_before_link BrowserEnv browser0 context0
              shader_v shader_f (Some [("a_position", 0); ("a_color", 1)])
              10%positive eq_refl)
    as (post & Htr & Hnone & _).
  exists post. split; [exact Htr | exact Hnone].
Defined.

(** X8. [delete()] keeps no record of the deletion: [n] calls forward [n]
    [deleteProgram] calls for the same native program and return the wrapper
    unchanged, and the wrapper still queries that program afterwards. *)
Theorem delete_is_not_guarded (E : Env) (n : nat) (s : St E)
    (this : Program.t) :
  let del := GL_deleteProgram (Program.gl this) (Program.internal this) in
  run E (deletes n this) s =
    mkRun (Returned this) (replicate n del) (replay E (replicate n del) s)
  /\ trace (run E (this' ← deletes n this; Program.get_linkStatus this') s) =
       replicate n del
       ++ [GL_getProgramParameter (Program.gl this) (Program.internal this)
             LINK_STATUS].
Proof.
  intros del. subst del.
  assert (Hrun : forall s' : St E,
            run E (deletes n this) s' =
              mkRun (Returned this)
                (replicate n
                   (GL_deleteProgram (Program.gl this) (Program.internal this)))
                (replay E
                   (replicate n
                      (GL_deleteProgram (Program.gl this)
                         (Program.internal this))) s')).
  { induction n as [| n IH]; intros s'; simpl.
    - reflexivity.
    - rewrite IH. reflexivity. }
  split.
  - apply Hrun.
  - rewrite run_mbind, Hrun. reflexivity.
Qed.

(** X9. [Program.fromSource] constructs the vertex shader, then the
    fragment shader, then the program without attribute locations.  An
    error thrown by a shader constructor reaches the caller unchanged, and
    nothing is called after it: a failed vertex shader means no fragment
    shader and no program, a failed fragment shader means no program. *)
Theorem fromSource_stops_at_first_failure (E : Env) (s : St E)
    (context : Context.t) (vsrc fsrc : string) :
  let v := run E (Shader.constructor context VERTEX_SHADER vsrc) s in
  let f := run E (Shader.constructor context FRAGMENT_SHADER fsrc) (final v) in
  let r := run E (Program.fromSource context vsrc fsrc) s in
  (forall e, outcome v = Thrown e -> r = mkRun (Thrown e) (trace v) (final v))
  /\ (forall vs e, outcome v = Returned vs -> outcome f = Thrown e ->
        r = mkRun (Thrown e) (trace v ++ trace f) (final f))
  /\ (forall vs fs, outcome v = Returned vs -> outcome f = Returned fs ->
        let p := run E (Program.constructor context vs fs None) (final f) in
        r = mkRun (outcome p) (trace v ++ trace f ++ trace p) (final p)).
Proof.
  intros v f r. subst v f r. unfold Program.fromSource.
  split; [| split].
  - intros e Hv. rewrite run_mbind, Hv. reflexivity.
  - intros vs e Hv Hf. rewrite run_mbind, Hv. cbv zeta.
    rewrite run_mbind, Hf. reflexivity.
  - intros vs fs Hv Hf. rewrite run_mbind, Hv. cbv zeta.
    rewrite run_mbind, Hf. reflexivity.
Qed.

Lemma fromSource_stops_at_first_failure_witness :
  run BrowserEnv (Program.fromSource context0 "void main(){}" "void main(){}")
    browser_compile_failure =
    mkRun (E := BrowserEnv) (Thrown (ShaderCompileError (Some "syntax error")))
      [GL_createShader 1%positive VERTEX_SHADER;
       GL_shaderSource 1%positive 20%positive "void main(){}";
       GL_compileShader 1%positive 20%positive;
       GL_getShaderParameter 1%positive 20%positive COMPILE_STATUS;
       GL_getShaderInfoLog 1%positive 20%positive]
      browser_compile_failure.
Proof.
  destruct (fromSource_stops_at_first_failure BrowserEnv
              browser_compile_failure context0 "void main(){}" "void main(){}")
    as (H & _).
  apply (H (ShaderCompileError (Some "syntax error")) eq_refl).
Defined.

(** ** More on [Attribute] *)

(** The two ways [set enabled] can run. *)
Lemma set_enabled_cases (E : Env) (s : St E) (a : Attribute.t) (value : bool) :
  let q := Vao_getBound (Attribute.gl a) in
  let c :=
    if value
    then GL_enableVertexAttribArray (Attribute.gl a) (Attribute.location a)
    else GL_disableVertexAttribArray (Attribute.gl a) (Attribute.location a) in
  (outcome (run E (Attribute.get_enabled a) s) = Returned value
   /\ run E (Attribute.set_enabled value a) s =
        mkRun (Returned a) [q] (after E q s))
  \/ (outcome (run E (Attribute.get_enabled a) s) = Returned (negb value)
      /\ run E (Attribute.set_enabled value a) s =
           mkRun (Returned (enabled_updated value (answer E q (after E q s)) a))
             [q; q; c] (after E c (after E q (after E q s)))).
Proof.
  intros q c. subst q c.
  pose proof (run_get_enabled E s a) as Hget.
  apply (f_equal outcome) in Hget. cbn [outcome] in Hget.
  destruct (match answer E (Vao_getBound (Attribute.gl a)) s with
            | Some v => includes (Attribute.enabledVaosCache a) v
            | None => false
            end) eqn:Hcur; destruct value.
  - left. split; [exact Hget |].
    apply run_set_enabled_unchanged. exact Hget.
  - right. split; [exact Hget |].
    apply (run_set_enabled_changed E s a false). exact Hget.
  - right. split; [exact Hget |].
    apply (run_set_enabled_changed E s a true). exact Hget.
  - left. split; [exact Hget |].
    apply run_set_enabled_unchanged. exact Hget.
Qed.

Lemma enabled_updated_fields (value : bool)
    (vao : option WebGLVertexArrayObject) (a : Attribute.t) :
  Attribute.gl (enabled_updated value vao a) = Attribute.gl a
  /\ Attribute.location (enabled_updated value vao a) = Attribute.location a
  /\ Attribute.activeInfo (enabled_updated value vao a) = Attribute.activeInfo a
  /\ Attribute.valueCache (enabled_updated value vao a) = Attribute.valueCache a.
Proof.
  unfold enabled_updated. destruct vao as [v |]; [| repeat split].
  cbv zeta.
  destruct value; destruct (includes (Attribute.enabledVaosCache a) v);
    repeat split.
Qed.

Lemma enabled_updated_NoDup (value : bool)
    (vao : option WebGLVertexArrayObject) (a : Attribute.t) :
  NoDup (Attribute.enabledVaosCache a) ->
  NoDup (Attribute.enabledVaosCache (enabled_updated value vao a)).
Proof.
  intros Hnd. destruct vao as [v |]; [| exact Hnd].
  apply enabled_updated_cached, Hnd.
Qed.

(** What [setValue] returns: the wrapper [set enabled(true)] left, with the
    value cache replaced. *)
Lemma setValue_outcome (E : Env) (s : St E) (a : Attribute.t)
    (arg : SetValueArg) :
  exists a1 : Attribute.t,
    outcome (run E (Attribute.set_enabled true a) s) = Returned a1
    /\ outcome (run E (Attribute.setValue arg a) s) =
         Returned (Attribute.with_valueCache (Some (realValue arg)) a1).
Proof.
  destruct (set_enabled_returns E s a true) as (a1 & Hout & _).
  exists a1. split; [exact Hout |].
  unfold Attribute.setValue. rewrite run_mbind.
  remember (run E (Attribute.set_enabled true a) s) as r1 eqn:Hr1.
  rewrite Hout. reflexivity.
Qed.

Lemma attribute_access_NoDup (E : Env) (s : St E) (op : AttributeAccess)
    (a : Attribute.t) :
  NoDup (Attribute.enabledVaosCache a) ->
  exists a' : Attribute.t,
    outcome (run E (attribute_access op a) s) = Returned a'
    /\ NoDup (Attribute.enabledVaosCache a')
    /\ Attribute.gl a' = Attribute.gl a
    /\ Attribute.location a' = Attribute.location a.
Proof.
  intros Hnd.
  assert (Hset : forall value s',
            exists a' : Attribute.t,
              outcome (run E (Attribute.set_enabled value a) s') = Returned a'
              /\ NoDup (Attribute.enabledVaosCache a')
              /\ Attribute.gl a' = Attribute.gl a
              /\ Attribute.location a' = Attribute.location a).
  { intros value s'.
    destruct (set_enabled_cases E s' a value) as [[_ Hrun] | [_ Hrun]];
      rewrite Hrun; cbn [outcome]; eexists; (split; [reflexivity |]).
    - repeat split. exact Hnd.
    - split; [apply enabled_updated_NoDup, Hnd |].
      destruct (enabled_updated_fields value
                  (answer E (Vao_getBound (Attribute.gl a))
                     (after E (Vao_getBound (Attribute.gl a)) s')) a)
        as (Hgl & Hloc & _).
      split; assumption. }
  destruct op as [| value | arg].
  - exists a. unfold attribute_access. rewrite run_mbind, run_get_enabled.
    cbn [outcome]. repeat split. exact Hnd.
  - apply Hset.
  - destruct (setValue_outcome E s a arg) as (a1 & Hout1 & Hout).
    destruct (Hset true s) as (a1' & Hout1' & Hnd1 & Hgl & Hloc).
    rewrite Hout1 in Hout1'. injection Hout1' as <-.
    eexists. split; [exact Hout |]. repeat split; assumption.
Qed.

(** X10. From its construction on, through any sequence of reads and writes
    of [enabled] and calls of [setValue], an attribute never throws and its
    per-VAO cache never holds a vertex array object twice. *)
Theorem enabled_cache_never_repeats (E : Env) (ops : list AttributeAccess)
    (s : St E) (program : Program.t) (activeInfo : WebGLActiveInfo) :
  exists a : Attribute.t,
    outcome (run E (this ← Attribute.constructor program activeInfo;
                    attribute_accesses ops this) s) = Returned a
    /\ NoDup (Attribute.enabledVaosCache a)
    /\ Attribute.gl a = Program.gl program.
Proof.
  assert (Hinv : forall (ops : list AttributeAccess) (s : St E)
                   (a : Attribute.t),
            NoDup (Attribute.enabledVaosCache a) ->
            exists a' : Attribute.t,
              outcome (run E (attribute_accesses ops a) s) = Returned a'
              /\ NoDup (Attribute.enabledVaosCache a')
              /\ Attribute.gl a' = Attribute.gl a).
  { clear ops s. induction ops as [| op rest IH]; intros s a Hnd; simpl.
    - exists a. repeat split. exact Hnd.
    - rewrite run_mbind.
      destruct (attribute_access_NoDup E s op a Hnd)
        as (a1 & Hout & Hnd1 & Hgl & _).
      rewrite Hout. cbn [outcome trace final]. cbv zeta.
      destruct (IH (final (run E (attribute_access op a) s)) a1 Hnd1)
        as (a' & Hout' & Hnd' & Hgl').
      exists a'. split; [exact Hout' |]. split; [exact Hnd' | congruence]. }
  rewrite run_mbind. unfold Attribute.constructor at 1. simpl.
  apply (Hinv ops _
           (Attribute.mk (Program.gl program) activeInfo
              (answer E
                 (GL_getAttribLocation (Program.gl program)
                    (Program.internal program) (ai_name activeInfo)) s)
              [] None)).
  apply NoDup_nil_2.
Qed.

(** Removing [v] by [splice(indexOf(v), 1)] keeps every other member. *)
Lemma splice1_indexOf_other (l : list WebGLVertexArrayObject)
    (v w : WebGLVertexArrayObject) :
  v ∈ l -> w <> v -> (w ∈ splice1 l (indexOf l v) <-> w ∈ l).
Proof.
  induction l as [| x rest IH]; intros Hin Hne.
  - inversion Hin.
  - simpl indexOf. destruct (Pos.eqb_spec x v) as [-> | Hxv].
    + rewrite splice1_head. rewrite elem_of_cons. split; [auto |].
      intros [Heq | H]; [destruct (Hne Heq) | exact H].
    + assert (Hrest : v ∈ rest).
      { apply elem_of_cons in Hin. destruct Hin as [-> | H]; [| exact H].
        destruct Hxv. reflexivity. }
      pose proof (indexOf_bounds rest v Hrest) as Hb.
      destruct (Z.ltb_spec (indexOf rest v) 0); [lia |].
      rewrite splice1_tail by exact Hb.
      rewrite !elem_of_cons, (IH Hrest Hne). reflexivity.
Qed.

Lemma enabled_updated_other (value : bool) (v w : WebGLVertexArrayObject)
    (a : Attribute.t) :
  w <> v ->
  includes (Attribute.enabledVaosCache (enabled_updated value (Some v) a)) w =
    includes (Attribute.enabledVaosCache a) w.
Proof.
  intros Hne. unfold enabled_updated. cbv zeta.
  destruct value;
    destruct (includes (Attribute.enabledVaosCache a) v) eqn:Hinc; simpl;
    try reflexivity; unfold includes; apply bool_decide_ext.
  - rewrite elem_of_app, list_elem_of_singleton. split; [| auto].
    intros [H | H]; [exact H | destruct (Hne H)].
  - apply splice1_indexOf_other; [| exact Hne].
    apply includes_true. exact Hinc.
Qed.

(** X11. The [enabled] flag is kept per vertex array object: writing it
    changes at most the entry of the object that [Vao.getBound] reports at
    the time of the update; for every other object the cache reports what it
    reported before. *)
Theorem set_enabled_touches_only_the_bound_vao (E : Env) (s : St E)
    (a : Attribute.t) (value : bool) (w : WebGLVertexArrayObject) :
  let q := Vao_getBound (Attribute.gl a) in
  answer E q (after E q s) <> Some w ->
  exists a' : Attribute.t,
    outcome (run E (Attribute.set_enabled value a) s) = Returned a'
    /\ includes (Attribute.enabledVaosCache a') w =
         includes (Attribute.enabledVaosCache a) w.
Proof.
  intros q Hw. subst q.
  destruct (set_enabled_cases E s a value) as [[_ Hrun] | [_ Hrun]];
    rewrite Hrun; cbn [outcome]; eexists; (split; [reflexivity |]).
  - reflexivity.
  - destruct (answer E (Vao_getBound (Attribute.gl a))
                (after E (Vao_getBound (Attribute.gl a)) s)) as [v |].
    + apply enabled_updated_other. congruence.
    + reflexivity.
Qed.

Lemma set_enabled_touches_only_the_bound_vao_witness :
  exists a' : Attribute.t,
    outcome (run BrowserEnv (Attribute.set_enabled false attribute_cached)
               browser_vao_bound) = Returned a'
    /\ includes (Attribute.enabledVaosCache a') 8%positive =
         includes (Attribute.enabledVaosCache attribute_cached) 8%positive.
Proof.
  apply (set_enabled_touches_only_the_bound_vao BrowserEnv browser_vao_bound
           attribute_cached false 8%positive).
  discriminate.
Defined.

Lemma indexOf_push (l : list WebGLVertexArrayObject)
    (v : WebGLVertexArrayObject) :
  v ∉ l -> splice1 (l ++ [v]) (indexOf (l ++ [v]) v) = l.
Proof.
  induction l as [| x rest IH]; intros Hnin.
  - simpl. rewrite Pos.eqb_refl. apply splice1_head.
  - apply not_elem_of_cons in Hnin. destruct Hnin as [Hne Hrest].
    simpl app. simpl indexOf.
    destruct (Pos.eqb_spec x v) as [-> | _]; [destruct Hne; reflexivity |].
    assert (Hin : v ∈ rest ++ [v]).
    { apply elem_of_app. right. apply list_elem_of_singleton. reflexivity. }
    pose proof (indexOf_bounds (rest ++ [v]) v Hin) as Hb.
    destruct (Z.ltb_spec (indexOf (rest ++ [v]) v) 0); [lia |].
    rewrite splice1_tail by exact Hb. rewrite (IH Hrest). reflexivity.
Qed.

(** X12. With a vertex array object bound that the attribute is not enabled
    for, enabling and then disabling the attribute issues one
    [enableVertexAttribArray] and one [disableVertexAttribArray] and leaves
    the wrapper exactly as it was. *)
Theorem enable_then_disable_restores (E : Env) (s : St E) (a : Attribute.t)
    (v : WebGLVertexArrayObject) :
  VaoBound E (Attribute.gl a) v ->
  includes (Attribute.enabledVaosCache a) v = false ->
  let q := Vao_getBound (Attribute.gl a) in
  let r := run E (a' ← Attribute.set_enabled true a;
                  Attribute.set_enabled false a') s in
  outcome r = Returned a
  /\ trace r =
       [q; q;
        GL_enableVertexAttribArray (Attribute.gl a) (Attribute.location a);
        q; q;
        GL_disableVertexAttribArray (Attribute.gl a) (Attribute.location a)].
Proof.
  intros Hv Hinc q r. subst q r.
  assert (Hget : forall s', outcome (run E (Attribute.get_enabled a) s') =
                            Returned (negb true)).
  { intros s'. rewrite run_get_enabled. cbn [outcome]. rewrite Hv, Hinc.
    reflexivity. }
  set (a1 := Attribute.with_enabledVaosCache
               (Attribute.enabledVaosCache a ++ [v]) a).
  assert (Hin1 : includes (Attribute.enabledVaosCache a1) v = true).
  { apply includes_true. apply elem_of_app. right.
    apply list_elem_of_singleton. reflexivity. }
  assert (Hget1 : forall s', outcome (run E (Attribute.get_enabled a1) s') =
                             Returned (negb false)).
  { intros s'. rewrite run_get_enabled. cbn [outcome].
    change (Attribute.gl a1) with (Attribute.gl a). rewrite Hv, Hin1.
    reflexivity. }
  rewrite run_mbind.
  rewrite (run_set_enabled_changed E s a true (Hget s)). cbv zeta.
  rewrite Hv. unfold enabled_updated. cbv zeta. rewrite Hinc.
  cbn [negb outcome trace final]. fold a1.
  rewrite (run_set_enabled_changed E _ a1 false (Hget1 _)). cbv zeta.
  change (Attribute.gl a1) with (Attribute.gl a).
  change (Attribute.location a1) with (Attribute.location a).
  rewrite Hv. unfold enabled_updated. cbv zeta. rewrite Hin1.
  cbn [outcome trace]. split; [| reflexivity].
  f_equal. unfold a1. cbn [Attribute.enabledVaosCache
                           Attribute.with_enabledVaosCache].
  rewrite indexOf_push by (apply includes_false; exact Hinc).
  destruct a; reflexivity.
Qed.

Lemma VaoEnv_VaoBound (g : RawContext) : VaoBound VaoEnv g 7%positive.
Proof. intros s. reflexivity. Qed.

Lemma enable_then_disable_restores_witness :
  outcome (run VaoEnv
             (a' ← Attribute.set_enabled true attribute0;
              Attribute.set_enabled false a') browser0) =
    Returned attribute0.
Proof.
  apply (enable_then_disable_restores VaoEnv browser0 attribute0 7%positive
           (VaoEnv_VaoBound 1%positive) eq_refl).
Defined.

(** X13. With a vertex array object bound, [setValue] first makes sure the
    attribute is enabled for it, issuing [enableVertexAttribArray] only if
    the cache does not list the object yet, then binds the value's buffer to
    [ARRAY_BUFFER], then calls [setterInternal].  Afterwards the attribute
    reads as enabled and its value is the value passed (a bare buffer
    wrapped as [{ buffer }]). *)
Theorem setValue_enables_binds_then_sets (E : Env) (s : St E)
    (a : Attribute.t) (arg : SetValueArg) (v : WebGLVertexArrayObject) :
  VaoBound E (Attribute.gl a) v ->
  let q := Vao_getBound (Attribute.gl a) in
  let enable :=
    GL_enableVertexAttribArray (Attribute.gl a) (Attribute.location a) in
  let r := run E (Attribute.setValue arg a) s in
  trace r =
    (if includes (Attribute.enabledVaosCache a) v then [q]
     else [q; q; enable])
    ++ [Buffer_bind (buffer (realValue arg)) ARRAY_BUFFER;
        Attribute_setterInternal (Attribute.gl a) (Attribute.location a)
          (realValue arg)]
  /\ exists a' : Attribute.t,
       outcome r = Returned a'
       /\ Attribute.get_value a' = Some (realValue arg)
       /\ outcome (run E (Attribute.get_enabled a') (final r)) = Returned true.
Proof.
  intros Hv q enable r. subst q enable r.
  destruct (run_setValue E s a arg) as (Htr & _).
  destruct (setValue_outcome E s a arg) as (a1 & Hout1 & Hout).
  cbv zeta in Htr. rewrite Htr, Hout. clear Htr Hout.
  assert (Hget : outcome (run E (Attribute.get_enabled a) s) =
                 Returned (includes (Attribute.enabledVaosCache a) v)).
  { rewrite run_get_enabled. cbn [outcome]. rewrite Hv. reflexivity. }
  assert (Hread : forall (t : Attribute.t) (s' : St E),
            Attribute.gl t = Attribute.gl a ->
            includes (Attribute.enabledVaosCache t) v = true ->
            outcome (run E (Attribute.get_enabled t) s') = Returned true).
  { intros t s' Hgl Hin. rewrite run_get_enabled. cbn [outcome].
    rewrite Hgl, Hv, Hin. reflexivity. }
  destruct (includes (Attribute.enabledVaosCache a) v) eqn:Hinc.
  - rewrite (run_set_enabled_unchanged E s a true Hget) in Hout1 |- *.
    cbn [outcome trace] in Hout1 |- *. injection Hout1 as <-.
    split; [reflexivity |]. eexists. split; [reflexivity |].
    split; [reflexivity |]. apply Hread; [reflexivity | exact Hinc].
  - rewrite (run_set_enabled_changed E s a true Hget) in Hout1 |- *.
    cbv zeta in Hout1 |- *. cbn [outcome trace] in Hout1 |- *.
    injection Hout1 as <-. rewrite Hv.
    split; [reflexivity |]. eexists. split; [reflexivity |].
    split; [reflexivity |]. apply Hread.
    + unfold enabled_updated. cbv zeta. rewrite Hinc. reflexivity.
    + unfold enabled_updated. cbv zeta. rewrite Hinc. simpl.
      apply includes_true. apply elem_of_app. right.
      apply list_elem_of_singleton. reflexivity.
Qed.

Lemma setValue_enables_binds_then_sets_witness :
  trace (run VaoEnv (Attribute.setValue (AsBuffer 5%positive) attribute0)
           browser0) =
    [Vao_getBound 1%positive; Vao_getBound 1%positive;
     GL_enableVertexAttribArray 1%positive 0;
     Buffer_bind 5%positive ARRAY_BUFFER;
     Attribute_setterInternal 1%positive 0
       (mkAttributeValue 5%positive None None None None)].
Proof.
  apply (setValue_enables_binds_then_sets VaoEnv browser0 attribute0
           (AsBuffer 5%positive) 7%positive (VaoEnv_VaoBound 1%positive)).
Defined.

(** X14. With no vertex array object bound, the attribute never reads as
    enabled, so every [setValue] issues [enableVertexAttribArray] again
    before binding the buffer and calling [setterInternal]; it changes the
    value cache only. *)
Theorem setValue_without_vao_enables_every_time (E : Env) (s : St E)
    (a : Attribute.t) (arg : SetValueArg) :
  NoVaoBound E (Attribute.gl a) ->
  let q := Vao_getBound (Attribute.gl a) in
  let r := run E (Attribute.setValue arg a) s in
  trace r =
    [q; q;
     GL_enableVertexAttribArray (Attribute.gl a) (Attribute.location a);
     Buffer_bind (buffer (realValue arg)) ARRAY_BUFFER;
     Attribute_setterInternal (Attribute.gl a) (Attribute.location a)
       (realValue arg)]
  /\ outcome r =
       Returned (Attribute.with_valueCache (Some (realValue arg)) a).
Proof.
  intros Hno q r. subst q r.
  destruct (run_setValue E s a arg) as (Htr & _).
  destruct (setValue_outcome E s a arg) as (a1 & Hout1 & Hout).
  cbv zeta in Htr. rewrite Htr, Hout. clear Htr Hout.
  assert (Hget : outcome (run E (Attribute.get_enabled a) s) =
                 Returned (negb true)).
  { rewrite run_get_enabled. cbn [outcome]. rewrite Hno. reflexivity. }
  rewrite (run_set_enabled_changed E s a true Hget) in Hout1 |- *.
  cbv zeta in Hout1 |- *. cbn [outcome trace] in Hout1 |- *.
  rewrite Hno in Hout1. injection Hout1 as <-.
  split; reflexivity.
Qed.

Lemma setValue_without_vao_enables_every_time_witness :
  trace (run NoVaoEnv
           (a' ← Attribute.setValue (AsValue value0) attribute0;
            Attribute.setValue (AsValue value0) a') browser0) =
    [Vao_getBound 1%positive; Vao_getBound 1%positive;
     GL_enableVertexAttribArray 1%positive 0;
     Buffer_bind 5%positive ARRAY_BUFFER;
     Attribute_setterInternal 1%positive 0 value0;
     Vao_getBound 1%positive; Vao_getBound 1%positive;
     GL_enableVertexAttribArray 1%positive 0;
     Buffer_bind 5%positive ARRAY_BUFFER;
     Attribute_setterInternal 1%positive 0 value0].
Proof.
  assert (Hno : forall a : Attribute.t, NoVaoBound NoVaoEnv (Attribute.gl a)).
  { intros a s. reflexivity. }
  rewrite run_mbind.
  destruct (setValue_without_vao_enables_every_time NoVaoEnv browser0
              attribute0 (AsValue value0) (Hno attribute0)) as [Htr Hout].
  rewrite Hout, Htr. cbv zeta. cbn [trace].
  destruct (setValue_without_vao_enables_every_time NoVaoEnv
              (final (run NoVaoEnv
                        (Attribute.setValue (AsValue value0) attribute0)
                        browser0))
              (Attribute.with_valueCache (Some (realValue (AsValue value0)))
                 attribute0)
              (AsValue value0) (Hno _)) as [Htr2 _].
  rewrite Htr2. reflexivity.
Defined.

(** X15. The [Attribute] constructor asks once for the location of the
    attribute named by the active information and keeps the answer
    unchecked (a missing attribute's [-1] included); it never throws.  A
    new attribute has no value and reads as disabled whatever vertex array
    object is bound. *)
Theorem new_attribute_is_disabled_and_unset (E : Env) (s : St E)
    (program : Program.t) (activeInfo : WebGLActiveInfo) :
  let q :=
    GL_getAttribLocation (Program.gl program) (Program.internal program)
      (ai_name activeInfo) in
  let a := Attribute.mk (Program.gl program) activeInfo (answer E q s) [] None in
  run E (Attribute.constructor program activeInfo) s =
    mkRun (Returned a) [q] (after E q s)
  /\ Attribute.get_value a = None
  /\ run E (this ← Attribute.constructor program activeInfo;
            Attribute.get_enabled this) s =
       mkRun (Returned false) [q; Vao_getBound (Program.gl program)]
         (after E (Vao_getBound (Program.gl program)) (after E q s)).
Proof.
  intros q a. subst q a. split; [reflexivity |]. split; [reflexivity |].
  unfold Attribute.constructor, Attribute.get_enabled. simpl.
  destruct (answer E (Vao_getBound (Program.gl program)) _) as [v |];
    reflexivity.
Qed.

(** ** More on [AttributeState.use] *)

(** X16. [use] looks at nothing but the entry stored under the state's own
    name: with an attribute stored under that name it assigns to that
    attribute whatever else the map holds, with the entry removed it throws,
    and entries under other names make no difference.  A state is found
    under the name it was constructed with. *)
Theorem use_depends_only_on_own_entry (E : Env) (s : St E)
    (this : AttributeState.t) (attributes : gmap string LegacyAttribute)
    (a : LegacyAttribute) :
  run E (AttributeState_use this (<[AttributeState.name this := a]> attributes))
    s =
    mkRun (Returned tt) [LegacyAttribute_set_value a this]
      (after E (LegacyAttribute_set_value a this) s)
  /\ run E (AttributeState_use this
              (delete (AttributeState.name this) attributes)) s =
       mkRun (Thrown (JsError "Attribute not found.")) [] s
  /\ (forall other : string, other <> AttributeState.name this ->
        run E (AttributeState_use this (<[other := a]> attributes)) s =
          run E (AttributeState_use this attributes) s
        /\ run E (AttributeState_use this (delete other attributes)) s =
             run E (AttributeState_use this attributes) s)
  /\ (forall n b size normalized stride offset,
        trace (run E (AttributeState_use
                        (AttributeState.constructor n b size normalized stride
                           offset)
                        (<[n := a]> attributes)) s) =
          [LegacyAttribute_set_value a
             (AttributeState.constructor n b size normalized stride offset)]).
Proof.
  split; [| split; [| split]].
  - unfold AttributeState_use. rewrite lookup_insert_eq. simpl.
    destruct (answer E (LegacyAttribute_set_value a this) s). reflexivity.
  - unfold AttributeState_use. rewrite lookup_delete_eq. reflexivity.
  - intros other Hne. unfold AttributeState_use.
    rewrite lookup_insert_ne by exact Hne.
    rewrite lookup_delete_ne by exact Hne. split; reflexivity.
  - intros n b size normalized stride offset. unfold AttributeState_use.
    cbn [AttributeState.name AttributeState.constructor].
    rewrite lookup_insert_eq. reflexivity.
Qed.

Lemma use_depends_only_on_own_entry_witness :
  run BrowserEnv
    (AttributeState_use state0
       (<["a_color" := 8%positive]> {[ "a_position" := 9%positive ]}))
    browser0 =
    run BrowserEnv
      (AttributeState_use state0 {[ "a_position" := 9%positive ]}) browser0.
Proof.
  destruct (use_depends_only_on_own_entry BrowserEnv browser0 state0
              {[ "a_position" := 9%positive ]} 8%positive)
    as (_ & _ & H & _).
  apply (H "a_color"). discriminate.
Defined.

(** ** Uniform setters *)

(** Repeating an operation that is a single call. *)
Lemma repeatedly_call (E : Env) (c : NativeCall) (k : Resp c -> unit)
    (n : nat) (s : St E) :
  run E (repeatedly n (Call c (fun r => Ret (k r)))) s =
    mkRun (Returned tt) (replicate n c) (replay E (replicate n c) s).
Proof.
  revert s. induction n as [| n IH]; intros s; simpl.
  - reflexivity.
  - rewrite IH. reflexivity.
Qed.

(** X17. The uniform setters of this tree keep no cache and check nothing:
    each call forwards the value as it is in exactly one native call, so
    setting the same value [n] times issues [n] calls.  The matrix setters
    pass [false] when [transpose] is undefined. *)
Theorem uniform_setters_always_forward (E : Env) (n : nat) (s : St E)
    (this : UniformFields) (value : list number) (x : number) :
  let g := u_gl this in
  let loc := u_location this in
  let off := u_sourceOffset this in
  let len := u_sourceLength this in
  let tr := match u_transpose this with Some b => b | None => false end in
  trace (run E (repeatedly n (FloatMatrix3x4Uniform.iterableSetter this value))
           s) =
    replicate n (GL_uniformMatrix3x4fv g loc tr value off len)
  /\ trace (run E (repeatedly n
                     (FloatMatrix2x2Uniform.iterableSetter this value)) s) =
       replicate n (GL_uniformMatrix2fv g loc tr value off len)
  /\ trace (run E (repeatedly n
                     (IntegerVector2Uniform.iterableSetter this value)) s) =
       replicate n (GL_uniform2iv g loc value off len)
  /\ trace (run E (repeatedly n
                     (FloatVector3Uniform.iterableSetterInternal this value))
              s) =
       replicate n (GL_uniform3fv g loc value off len)
  /\ trace (run E (repeatedly n (FloatUniform.iterableSetter this value)) s) =
       replicate n (GL_uniform1fv g loc value off len)
  /\ trace (run E (repeatedly n (FloatUniform.setter this x)) s) =
       replicate n (GL_uniform1f g loc x).
Proof.
  intros g loc off len tr. subst g loc off len tr.
  unfold FloatMatrix3x4Uniform.iterableSetter,
    FloatMatrix2x2Uniform.iterableSetter, IntegerVector2Uniform.iterableSetter,
    FloatVector3Uniform.iterableSetterInternal, FloatUniform.iterableSetter,
    FloatUniform.setter, call.
  repeat split;
    match goal with
    | |- trace (run E (repeatedly n (Call ?c _)) s) = _ =>
        exact (f_equal trace (repeatedly_call E c (fun r => r) n s))
    end.
Qed.

(** X18. With no vertex array object bound the wrapper can enable an
    attribute but not disable it again: the getter reads [false], so
    assigning [false] is always skipped, and enabling followed by disabling
    issues [enableVertexAttribArray] and no [disableVertexAttribArray]. *)
Theorem disable_without_vao_is_skipped (E : Env) (s : St E) (a : Attribute.t) :
  NoVaoBound E (Attribute.gl a) ->
  let q := Vao_getBound (Attribute.gl a) in
  let enable :=
    GL_enableVertexAttribArray (Attribute.gl a) (Attribute.location a) in
  run E (Attribute.set_enabled false a) s = mkRun (Returned a) [q] (after E q s)
  /\ trace (run E (a' ← Attribute.set_enabled true a;
                   Attribute.set_enabled false a') s) =
       [q; q; enable; q].
Proof.
  intros Hno q enable. subst q enable.
  assert (Hget : forall s', outcome (run E (Attribute.get_enabled a) s') =
                            Returned false).
  { intros s'. rewrite run_get_enabled. cbn [outcome]. rewrite Hno.
    reflexivity. }
  assert (Hoff : forall s', run E (Attribute.set_enabled false a) s' =
                            mkRun (Returned a) [Vao_getBound (Attribute.gl a)]
                              (after E (Vao_getBound (Attribute.gl a)) s')).
  { intros s'. apply run_set_enabled_unchanged. apply Hget. }
  split; [apply Hoff |].
  rewrite run_mbind.
  rewrite (run_set_enabled_changed E s a true (Hget s)). cbv zeta.
  rewrite Hno. cbn [enabled_updated outcome trace final].
  rewrite Hoff. reflexivity.
Qed.

Lemma disable_without_vao_is_skipped_witness :
  trace (run NoVaoEnv
           (a' ← Attribute.set_enabled true attribute0;
            Attribute.set_enabled false a') browser0) =
    [Vao_getBound 1%positive; Vao_getBound 1%positive;
     GL_enableVertexAttribArray 1%positive 0; Vao_getBound 1%positive].
Proof.
  assert (Hno : NoVaoBound NoVaoEnv (Attribute.gl attribute0)).
  { intros s. reflexivity. }
  apply (disable_without_vao_is_skipped NoVaoEnv browser0 attribute0 Hno).
Defined.
